(** * Bikram Sambat dates: a shallow embedding of [BikramSambat.ts] and [format.ts]

    The development follows the TypeScript sources of the date picker's core:
    the [BikramSambat] class (fields [year], [month], [day], each a JS number
    or [undefined]), its arithmetic ([addYears], [addMonths], [addDays]), the
    conversions from and to Gregorian dates, and the formatter.

    JS numbers are modelled by [number]: an integer (exact below 2^53) or
    [NaN].  A thrown exception is an [Err] of the [result] monad.  The two
    recursive closures [adjustYear] and [adjustMonth] take an explicit bound on
    the depth of the call stack; exhausting it is the engine's [RangeError]. *)

From stdpp Require Import base numbers list strings pretty gmap sorting.
From Stdlib Require Import ZArith Lia Ascii.

Local Open Scope Z_scope.

(** ** The Gregorian date primitive *)

(** Modelled from the spec: the Gregorian date behind the platform's [Date]
    and the day arithmetic the helpers [addDaysToGregorianDate] and
    [getDaysBetweenTwoAdDates] rest on (section 4.2): a proleptic Gregorian
    day number, and the date [n] days after a date, rolled over months and
    years by the leap-year rule.  Time of day and time zones are left out. *)
Module Gregorian.

Record GregorianDate := mkGregorian { gYear : Z; gMonth : Z; gDay : Z }.

(** The leap-year rule: divisible by 4, not by 100 unless by 400. *)
Definition isLeap (y : Z) : bool :=
  (y mod 4 =? 0) && (negb (y mod 100 =? 0) || (y mod 400 =? 0)).

Definition monthLength (y m : Z) : Z :=
  if m =? 2 then (if isLeap y then 29 else 28)
  else if (m =? 4) || (m =? 6) || (m =? 9) || (m =? 11) then 30
  else 31.

Definition valid (g : GregorianDate) : bool :=
  (1 <=? gMonth g) && (gMonth g <=? 12)
  && (1 <=? gDay g) && (gDay g <=? monthLength (gYear g) (gMonth g)).

(** Days of the proleptic calendar before 1 January of year [y]. *)
Definition daysBeforeYear (y : Z) : Z :=
  365 * (y - 1) + (y - 1) / 4 - (y - 1) / 100 + (y - 1) / 400.

(** Days of year [y] before the first of month [m]. *)
Definition daysBeforeMonth (y m : Z) : Z :=
  let feb := if isLeap y then 29 else 28 in
  if m <=? 1 then 0
  else if m =? 2 then 31
  else if m =? 3 then 31 + feb
  else if m =? 4 then 62 + feb
  else if m =? 5 then 92 + feb
  else if m =? 6 then 123 + feb
  else if m =? 7 then 153 + feb
  else if m =? 8 then 184 + feb
  else if m =? 9 then 215 + feb
  else if m =? 10 then 245 + feb
  else if m =? 11 then 276 + feb
  else 306 + feb.

(** The day number of a date: a proleptic Gregorian day count. *)
Definition dayNumber (g : GregorianDate) : Z :=
  daysBeforeYear (gYear g) + daysBeforeMonth (gYear g) (gMonth g) + gDay g.

Definition nextDay (g : GregorianDate) : GregorianDate :=
  if gDay g <? monthLength (gYear g) (gMonth g)
  then mkGregorian (gYear g) (gMonth g) (gDay g + 1)
  else if gMonth g <? 12
  then mkGregorian (gYear g) (gMonth g + 1) 1
  else mkGregorian (gYear g + 1) 1 1.

Definition prevDay (g : GregorianDate) : GregorianDate :=
  if 1 <? gDay g
  then mkGregorian (gYear g) (gMonth g) (gDay g - 1)
  else if 1 <? gMonth g
  then mkGregorian (gYear g) (gMonth g - 1)
                   (monthLength (gYear g) (gMonth g - 1))
  else mkGregorian (gYear g - 1) 12 31.

(** The date [n] days after [g] ([n] of any sign). *)
Definition shift (g : GregorianDate) (n : Z) : GregorianDate :=
  if 0 <=? n then Nat.iter (Z.to_nat n) nextDay g
  else Nat.iter (Z.to_nat (- n)) prevDay g.

End Gregorian.

Import Gregorian.

(** ** JavaScript values *)

(** A JS number, restricted to the integers and [NaN]. *)
Inductive number := Int (z : Z) | NaN.

(** A field of type [number | undefined] is an [option number]; [None] is
    [undefined], which arithmetic and comparisons read as [NaN]. *)
Definition toNumber (v : option number) : number := default NaN v.

Definition num_add (a b : number) : number :=
  match a, b with Int x, Int y => Int (x + y) | _, _ => NaN end.

Definition num_sub (a b : number) : number :=
  match a, b with Int x, Int y => Int (x - y) | _, _ => NaN end.

(** JS [%]: the remainder has the sign of the dividend; [x % 0] is [NaN]. *)
Definition num_rem (a b : number) : number :=
  match a, b with
  | Int x, Int y => if y =? 0 then NaN else Int (Z.rem x y)
  | _, _ => NaN
  end.

(** [a > b] and [a <= b]; every comparison with [NaN] is false. *)
Definition num_gt (a b : number) : bool :=
  match a, b with Int x, Int y => y <? x | _, _ => false end.

Definition num_le (a b : number) : bool :=
  match a, b with Int x, Int y => x <=? y | _, _ => false end.

(** [a === b] on numbers. *)
Definition num_eq (a b : number) : bool :=
  match a, b with Int x, Int y => x =? y | _, _ => false end.

(** Truthiness of a [number | undefined]: [undefined], [0] and [NaN] are falsy. *)
Definition truthy (v : option number) : bool :=
  match v with
  | Some (Int z) => negb (z =? 0)
  | _ => false
  end.

(** [`${n}`] and [n.toString()]. *)
Definition num_toString (n : number) : string :=
  match n with Int z => pretty z | NaN => "NaN" end.

(** [s.padStart(n, c)] for a one-character filler. *)
Definition padStart (n : nat) (c : Ascii.ascii) (s : string) : string :=
  String.string_of_list_ascii (replicate (n - String.length s) c) +:+ s.

(** [s.slice(-k)]: the last [k] characters, all of [s] when it is shorter. *)
Definition sliceLast (k : nat) (s : string) : string :=
  String.substring (String.length s - k) k s.

(** [s.replace(pat, repl)] for a string pattern: the first occurrence only. *)
Fixpoint replace (pat repl s : string) : string :=
  if String.prefix pat s
  then repl +:+ String.substring (String.length pat) (String.length s - String.length pat) s
  else match s with
       | EmptyString => EmptyString
       | String c rest => String c (replace pat repl rest)
       end.

(** [arr[i]] for a number index: [undefined] out of range. *)
Definition index {A} (arr : list A) (i : number) : option A :=
  match i with
  | Int z => if 0 <=? z then arr !! Z.to_nat z else None
  | NaN => None
  end.

(** Thrown exceptions. [RangeError] is the exhausted call stack. *)
Inductive exception := TypeError | LookupError | RangeError.

Inductive result (A : Type) :=
| Ok (a : A)
| Err (e : exception).
Arguments Ok {A} a.
Arguments Err {A} e.

Definition bind {A B} (r : result A) (k : A -> result B) : result B :=
  match r with Ok a => k a | Err e => Err e end.

Notation "x <~ r ;; k" := (bind r (fun x => k))
  (at level 100, r at next level, right associativity).

(** A JS [Date]: [None] is the invalid date, whose [toString()] is
    ["Invalid Date"]. *)
Definition JSDate := option GregorianDate.

(** Modelled from the spec: [getDay()] of the platform's [Date], the day of
    the week with 0 for Sunday; it is [NaN] for the invalid date.  Day number
    1 (1 January of year 1) is a Monday. *)
Definition Date_getDay (d : JSDate) : number :=
  match d with
  | Some g => Int (dayNumber g mod 7)
  | None => NaN
  end.

(** ** Static data *)

(** Modelled from the spec: the constant [InvalidDate] of the data module, the
    literal that [format] compares [toString()] with. *)
Definition InvalidDate : string := "Invalid Date".

Record Month := mkMonth { en : string; np : string; ad : string }.

Definition NepaliMonthsData : list Month :=
  [ mkMonth "Baisakh" "बैशाख" "Apr/May";
    mkMonth "Jestha" "जेठ" "May/Jun";
    mkMonth "Ashad" "असार" "Jun/Jul";
    mkMonth "Shrawn" "श्रावण" "Jul/Aug";
    mkMonth "Bhadra" "भदौ" "Aug/Sep";
    mkMonth "Ashoj" "आश्विन" "Sep/Oct";
    mkMonth "Kartik" "कार्तिक" "Oct/Nov";
    mkMonth "Mangshir" "मंसिर" "Nov/Dec";
    mkMonth "Paush" "पुष" "Dec/Jan";
    mkMonth "Magh" "माघ" "Jan/Feb";
    mkMonth "Falgun" "फाल्गुन" "Feb/Mar";
    mkMonth "Chaitra" "चैत्र" "Mar/Apr" ].

Definition MONTHS_IN_A_YEAR : Z := 12.
Definition DAYS_IN_A_LEAP_YEAR : Z := 366.

(** ** The date entity *)

Record BikramSambat := mkBS {
  year : option number;
  month : option number;
  day : option number
}.

Definition unset : BikramSambat := mkBS None None None.

Definition setYear (v : option number) (b : BikramSambat) := mkBS v (month b) (day b).
Definition setMonth (v : option number) (b : BikramSambat) := mkBS (year b) v (day b).
Definition setDay (v : option number) (b : BikramSambat) := mkBS (year b) (month b) v.

(** What [parse] returns: the invalid marker (a string) or a triple. *)
Inductive parsed :=
| ParseInvalid (marker : string)
| ParseDate (y m d : option number).

(** The argument of the constructor: [string | BikramSambat | undefined]. *)
Inductive bsInput :=
| BsUndefined
| BsString (s : string)
| BsInstance (b : BikramSambat).

(** The argument of [toBikramSambat]: [Date | string | undefined]. *)
Inductive adInput :=
| AdUndefined
| AdString (s : string)
| AdDate (d : JSDate).

(** What [getPreviousMonth] and [getNextMonth] evaluate to: a descriptor,
    [null], or the [undefined] of an array read out of range. *)
Inductive monthValue :=
| MonthOf (m : Month)
| MonthNull
| MonthUndefined.

Definition monthAt (i : number) : monthValue :=
  match index NepaliMonthsData i with
  | Some m => MonthOf m
  | None => MonthUndefined
  end.

(** A decimal digit, and a text of the shape [YYYY-MM-DD]. *)
Definition isDigit (c : Ascii.ascii) : bool :=
  (48 <=? Ascii.nat_of_ascii c)%nat && (Ascii.nat_of_ascii c <=? 57)%nat.



(** ** The class [BikramSambat] and the formatter *)

Section BikramSambat.

(** [DaysInMonthsMappingData] and [NewYearMappingData] are objects keyed by
    the BS year; the values of the second are taken as dates already.  The
    data files are not among the sources, so both tables are parameters; so
    are [parse] of the parser module, the [Date] parser of the platform
    ([new Date(text)]), [generateDateFormatOrder] and the system date
    ([new Date()]). *)
Context (daysInMonthMap : gmap Z (list Z)).
Context (newYearMap : gmap Z GregorianDate).
Context (parse : string -> parsed).
Context (parseAD : string -> JSDate).
Context (generateDateFormatOrder : string -> list string).
Context (now : GregorianDate).

(** [daysInMonthMap[y]] for a number [y]. *)
Definition monthsOf (y : number) : option (list Z) :=
  match y with
  | Int z => daysInMonthMap !! z
  | NaN => None
  end.

(** Modelled from the spec: the Calendar Tables contract
    [daysInMonth(bsYear, month)], which fails with [LookupError] when the
    year or the month (1..12) is out of range. *)
Definition daysInMonth (y m : Z) : result Z :=
  match daysInMonthMap !! y with
  | None => Err LookupError
  | Some months =>
    if (1 <=? m) && (m <=? 12)
    then match months !! Z.to_nat (m - 1) with
         | Some n => Ok n
         | None => Err LookupError
         end
    else Err LookupError
  end.

(** Modelled from the spec: [isDayValid] of the parser module, the boolean
    [1 <= day <= daysInMonth(year, month)] of a year, a month and a day that
    are integers; the spec names no failure for it, so a failed lookup is
    [false].  A [NaN], which the fields of a copied unset date hold, is
    outside what the spec describes and is no key of the table: there the
    helper has no row to read and raises a [TypeError]. *)
Definition isDayValid (y m d : number) : result bool :=
  match y, m, d with
  | Int y, Int m, Int d =>
    Ok match daysInMonth y m with
       | Ok n => (1 <=? d) && (d <=? n)
       | Err _ => false
       end
  | _, _, _ => Err TypeError
  end.

(** Modelled from the spec: the sum of [daysInMonth(year, m)] for [m] in
    [1..k], the part of [getDaysFromBsNewYear] that reads the table. *)
Fixpoint daysBeforeBsMonth (y : Z) (k : nat) : result Z :=
  match k with
  | O => Ok 0
  | S k' =>
    s <~ daysBeforeBsMonth y k';;
    n <~ daysInMonth y (Z.of_nat k);;
    Ok (s + n)
  end.

(** Modelled from the spec: [getDaysFromBsNewYear], the 1-based offset of a
    date from its year's New Year: the sum of [daysInMonth(year, m)] for [m]
    in [1..month-1], plus [day]; the day is not validated. *)
Definition getDaysFromBsNewYear (y m d : Z) : result Z :=
  s <~ daysBeforeBsMonth y (Z.to_nat (m - 1));;
  Ok (s + d).

(** Modelled from the spec: [addDaysToGregorianDate], the calendar date [n]
    days after [date]; an invalid date stays invalid. *)
Definition addDaysToGregorianDate (date : JSDate) (n : Z) : JSDate :=
  (fun g => shift g n) <$> date.

(** Modelled from the spec: [getDaysBetweenTwoAdDates], the signed day count
    [a - b] in a proleptic Gregorian day-number scheme. *)
Definition getDaysBetweenTwoAdDates (a b : GregorianDate) : Z :=
  dayNumber a - dayNumber b.

(** Modelled from the spec: the years of [NewYearMappingData] in increasing
    order, as [getNewYearDateInfo] scans them. *)
Definition tabulatedYears : list Z :=
  merge_sort Z.le (elements (dom newYearMap)).

(** Modelled from the spec: the test of [getNewYearDateInfo] on one year: its
    New Year is [<= adDate] and its successor year's New Year is [> adDate]. *)
Definition inNewYearInterval (adDate : GregorianDate) (y : Z) : bool :=
  match newYearMap !! y, newYearMap !! (y + 1) with
  | Some ny, Some ny' =>
    (dayNumber ny <=? dayNumber adDate) && (dayNumber adDate <? dayNumber ny')
  | _, _ => false
  end.

(** Modelled from the spec: [getNewYearDateInfo], which scans the table in
    increasing year order for the year that passes the test and returns it
    with its New Year; it fails with [LookupError] when no tabulated year
    qualifies. *)
Definition getNewYearDateInfo (adDate : GregorianDate) : result (GregorianDate * Z) :=
  match find (inNewYearInterval adDate) tabulatedYears with
  | Some y =>
    match newYearMap !! y with
    | Some ny => Ok (ny, y)
    | None => Err LookupError
    end
  | None => Err LookupError
  end.

Definition getYear (b : BikramSambat) : number := default NaN (year b).
Definition getMonth (b : BikramSambat) : number := default NaN (month b).
Definition getDay (b : BikramSambat) : number := default NaN (day b).

(** The constructor of the class. *)
Definition newBikramSambat (dateStr : bsInput) : BikramSambat :=
  match dateStr with
  | BsString s =>
    match parse s with
    | ParseInvalid _ => mkBS None None None
    | ParseDate y m d => mkBS y m d
    end
  | BsInstance other =>
    mkBS (Some (getYear other)) (Some (getMonth other)) (Some (getDay other))
  | BsUndefined => mkBS None None None
  end.

Definition toString (b : BikramSambat) : result string :=
  match year b, month b, day b with
  | Some y, Some m, Some d =>
    dayValid <~ isDayValid y m d;;
    if negb dayValid then Ok InvalidDate
    else
      let month := padStart 2 "0"%char (num_toString m) in
      let day := padStart 2 "0"%char (num_toString d) in
      Ok (num_toString y +:+ "-" +:+ month +:+ "-" +:+ day)
  | _, _, _ => Ok InvalidDate
  end.

Definition getPreviousYear (b : BikramSambat) : number :=
  if truthy (year b) then num_sub (toNumber (year b)) (Int 1) else NaN.

Definition getNextYear (b : BikramSambat) : number :=
  if truthy (year b) then num_add (toNumber (year b)) (Int 1) else NaN.

(** The integer behind a truthy field. *)
Definition truthyInt (v : option number) : option Z :=
  match v with
  | Some (Int z) => if z =? 0 then None else Some z
  | _ => None
  end.

Definition toGregorian (b : BikramSambat) : result JSDate :=
  match truthyInt (year b), truthyInt (month b), truthyInt (day b) with
  | Some y, Some m, Some d =>
    daysFromNewYear <~ getDaysFromBsNewYear y m d;;
    let newYearDayAD := newYearMap !! y in
    let gregorianDate := addDaysToGregorianDate newYearDayAD (daysFromNewYear - 1) in
    Ok gregorianDate
  | _, _, _ => Ok (Some now)
  end.

(** The static method [toGregorian]. *)
Definition static_toGregorian (date : bsInput) : result JSDate :=
  let bsDate := newBikramSambat date in
  toGregorian bsDate.

Definition addYears (years : number) (b : BikramSambat) : BikramSambat :=
  match year b with
  | None => b
  | Some y => setYear (Some (num_add y years)) b
  end.

Definition getDaysInMonth (b : BikramSambat) : result (option number) :=
  match month b, year b with
  | Some m, Some y =>
    match monthsOf y with
    | None => Err TypeError
    | Some months => Ok (Int <$> index months (num_sub m (Int 1)))
    end
  | _, _ => Ok (Some NaN)
  end.

Fixpoint adjustYear (depth : nat) (remainingMonths yearsToAdd : number)
         (b : BikramSambat) : result BikramSambat :=
  match depth with
  | O => Err RangeError
  | S depth' =>
    let monthsInYear := Int MONTHS_IN_A_YEAR in
    if num_gt remainingMonths monthsInYear then
      adjustYear depth' (num_sub remainingMonths monthsInYear)
                 (num_add yearsToAdd (Int 1)) b
    else if num_le remainingMonths (Int 0) then
      adjustYear depth' (num_add remainingMonths monthsInYear)
                 (num_sub yearsToAdd (Int 1)) b
    else
      let b := setMonth (Some remainingMonths) b in
      let b := addYears yearsToAdd b in
      daysInCurrentMonth <~ getDaysInMonth b;;
      if truthy (day b) && num_gt (toNumber (day b)) (toNumber daysInCurrentMonth)
      then Ok (setDay daysInCurrentMonth b)
      else Ok b
  end.

Definition addMonths (depth : nat) (months : number) (b : BikramSambat)
  : result BikramSambat :=
  match month b, year b with
  | Some m, Some _ =>
    let totalMonths := num_add m months in
    adjustYear depth totalMonths (Int 0) b
  | _, _ => Ok b
  end.

Fixpoint adjustMonth (depth : nat) (remainingDays : number) (b : BikramSambat)
  : result BikramSambat :=
  match depth with
  | O => Err RangeError
  | S depth' =>
    daysInMonth <~ getDaysInMonth b;;
    if num_gt remainingDays (toNumber daysInMonth) then
      b <~ addMonths depth' (Int 1) b;;
      adjustMonth depth' (num_sub remainingDays (toNumber daysInMonth)) b
    else if num_le remainingDays (Int 0) then
      b <~ addMonths depth' (Int (-1)) b;;
      adjustMonth depth' (num_add (toNumber daysInMonth) remainingDays) b
    else
      Ok (setDay (Some remainingDays) b)
  end.

Definition addDays (depth : nat) (days : number) (b : BikramSambat)
  : result BikramSambat :=
  match day b, month b with
  | Some d, Some _ =>
    let totalDays := num_add d days in
    adjustMonth depth totalDays b
  | _, _ => Ok b
  end.

Definition toBikramSambat (depth : nat) (date : adInput) : result BikramSambat :=
  let falsy :=
    match date with
    | AdUndefined => true
    | AdString s => String.eqb s ""
    | AdDate _ => false
    end in
  if falsy then Ok (newBikramSambat BsUndefined)
  else
    let gregorianDate : JSDate :=
      match date with
      | AdUndefined => None
      | AdString s => parseAD s
      | AdDate d => d
      end in
    match gregorianDate with
    | None => Ok (newBikramSambat BsUndefined)
    | Some g =>
      info <~ getNewYearDateInfo g;;
      let '(newYearDate, bsYear) := info in
      let daysFromNewYear := getDaysBetweenTwoAdDates g newYearDate in
      let bsDate := newBikramSambat (BsString (pretty bsYear +:+ "-01-01")) in
      addDays depth (Int daysFromNewYear) bsDate
    end.

Definition isLeapYear (b : BikramSambat) : result bool :=
  match year b with
  | None => Ok false
  | Some y =>
    match monthsOf y with
    | None => Err TypeError
    | Some months =>
      let daysInCurrentYear := foldl (fun acc days => acc + days) 0 months in
      Ok (daysInCurrentYear =? DAYS_IN_A_LEAP_YEAR)
    end
  end.

Definition getPreviousMonth (b : BikramSambat) : monthValue :=
  if negb (truthy (month b)) then MonthNull
  else
    let m := toNumber (month b) in
    let month := if num_eq m (Int 1) then Int 12 else num_sub m (Int 1) in
    monthAt (num_sub month (Int 1)).

Definition getNextMonth (b : BikramSambat) : monthValue :=
  if negb (truthy (month b)) then MonthNull
  else
    let month := num_rem (num_add (toNumber (month b)) (Int 1)) (Int 12) in
    monthAt (num_sub month (Int 1)).

Definition getDayOfWeek (b : BikramSambat) : result number :=
  match year b, month b with
  | Some _, Some _ =>
    dateInGregorian <~ toGregorian b;;
    let dayOfWeek := Date_getDay dateInGregorian in
    Ok dayOfWeek
  | _, _ => Ok NaN
  end.

(** *** Well-formedness of the tables and of printed dates *)

Definition sumZ (l : list Z) : Z := foldr Z.add 0 l.

(** A year the conversions can handle: it has twelve month lengths, all
    positive, its New Year and the next one are tabulated, and the two New
    Years are as many days apart as the year is long.  The year 0 is
    left out: [toGregorian] reads a zero field as unset. *)
Definition tabulated (y : Z) : bool :=
  match daysInMonthMap !! y, newYearMap !! y, newYearMap !! (y + 1) with
  | Some months, Some ny, Some ny' =>
    negb (y =? 0)
    && (length months =? 12)%nat
    && forallb (fun n => 1 <=? n) months
    && valid ny
    && (dayNumber ny' =? dayNumber ny + sumZ months)
  | _, _, _ => false
  end.

(** The years [y], [y + 1], ..., [y + k] are all tabulated. *)
Definition tabulatedFrom (y : Z) (k : nat) : bool :=
  forallb (fun i => tabulated (y + Z.of_nat i)) (seq 0 (S k)).

(** The New Year dates do not decrease with the year. *)
Definition newYearsIncreasing : bool :=
  forallb (fun e1 : Z * GregorianDate =>
    forallb (fun e2 : Z * GregorianDate =>
      if e1.1 <=? e2.1 then dayNumber e1.2 <=? dayNumber e2.2 else true)
      (map_to_list newYearMap))
    (map_to_list newYearMap).

(** The tabulated years have four digits and no month is longer than 99 days. *)
Definition printable : bool :=
  forallb (fun e : Z * list Z =>
    (1000 <=? e.1) && (e.1 <=? 9999) && forallb (fun n => n <=? 99) e.2)
    (map_to_list daysInMonthMap).

(** [format] of the formatter module. *)
Definition MonthNamesEn : list string := map en NepaliMonthsData.

Definition formatComponent (y m d : number) (formattedDate component : string)
  : string :=
  if String.eqb component "year" && truthy (Some y) then
    let formattedDate := replace "YYYY" (num_toString y) formattedDate in
    let formattedDate := replace "YYY" (sliceLast 3 (num_toString y)) formattedDate in
    replace "YY" (sliceLast 2 (num_toString y)) formattedDate
  else if String.eqb component "month" && truthy (Some m) then
    match index MonthNamesEn (num_sub m (Int 1)) with
    | Some name =>
      if String.eqb name "" then formattedDate
      else
        let formattedDate := replace "MMMM" name formattedDate in
        replace "MM" (padStart 2 "0"%char (num_toString m)) formattedDate
    | None => formattedDate
    end
  else if String.eqb component "day" && truthy (Some d) then
    replace "DD" (padStart 2 "0"%char (num_toString d)) formattedDate
  else formattedDate.

Definition format (date : BikramSambat) (dateFormat : string) : result string :=
  printed <~ toString date;;
  if String.eqb printed "Invalid Date" then Ok "Invalid Date"
  else
    let year := getYear date in
    let month := getMonth date in
    let day := getDay date in
    let order := generateDateFormatOrder dateFormat in
    Ok (foldl (formatComponent year month day) dateFormat order).

(** The method [format] of the class. *)
Definition BikramSambat_format (b : BikramSambat) (formatStr : string)
  : result string :=
  format b formatStr.

End BikramSambat.

(** ** The date formats *)

(** The character classes of the patterns: [\d], [[A-Za-z]] and [[-/ ]]. *)
Inductive charClass := Digit | Letter | Separator.

Definition inClass (k : charClass) (c : Ascii.ascii) : bool :=
  let n := Ascii.nat_of_ascii c in
  match k with
  | Digit => (48 <=? n)%nat && (n <=? 57)%nat
  | Letter => ((65 <=? n)%nat && (n <=? 90)%nat) || ((97 <=? n)%nat && (n <=? 122)%nat)
  | Separator => (n =? 45)%nat || (n =? 47)%nat || (n =? 32)%nat
  end.

(** The patterns of [DateFormats] are built from a quantified class
    ([k{min,max}], with one character as [{1,1}] and [+] as [{1,}]), the
    capturing group [(r)], the group [(?:r)] and concatenation; all of them
    are anchored by [^] and [$]. *)
Inductive regex :=
| Chars (k : charClass) (min : nat) (max : option nat)
| Capture (r : regex)
| NonCapture (r : regex)
| Seq (r1 r2 : regex).

(** The number of leading characters of [l] in the class. *)
Fixpoint classRun (k : charClass) (l : list Ascii.ascii) : nat :=
  match l with
  | c :: rest => if inClass k c then S (classRun k rest) else O
  | [] => O
  end.

(** A greedy quantifier: the continuation is tried after [n] characters, then
    after [n - 1], down to [lo], the first success winning. *)
Fixpoint tryCounts (lo n : nat) (l : list Ascii.ascii)
         (k : list Ascii.ascii -> option (list string)) : option (list string) :=
  if (n <? lo)%nat then None
  else match k (drop n l) with
       | Some caps => Some caps
       | None =>
         match n with
         | O => None
         | S n' => tryCounts lo n' l k
         end
       end.

(** The number of capturing groups of a pattern. *)
Fixpoint groups (r : regex) : nat :=
  match r with
  | Chars _ _ _ => O
  | Capture r' => S (groups r')
  | NonCapture r' => groups r'
  | Seq r1 r2 => (groups r1 + groups r2)%nat
  end.

(** Backtracking matching of [r] at the head of [l], with the rest of the
    pattern as the continuation; the result is the list of captured texts, in
    the order of the opening parentheses.  The text of a group is known when
    the group closes, after the groups inside it: it is moved in front of
    them. *)
Fixpoint run (r : regex) (l : list Ascii.ascii)
         (k : list Ascii.ascii -> option (list string)) : option (list string) :=
  match r with
  | Chars cls lo hi =>
    let available := classRun cls l in
    let n := match hi with Some h => Nat.min available h | None => available end in
    tryCounts lo n l k
  | Capture r' =>
    let closing rest :=
      match k rest with
      | Some caps =>
        Some (String.string_of_list_ascii (take (length l - length rest) l) :: caps)
      | None => None
      end in
    match run r' l closing with
    | Some caps =>
      match drop (groups r') caps with
      | text :: after => Some (text :: take (groups r') caps ++ after)
      | [] => None
      end
    | None => None
    end
  | NonCapture r' => run r' l k
  | Seq r1 r2 => run r1 l (fun rest => run r2 rest k)
  end.

(** [regex.exec(s)] for a pattern anchored at both ends: the captured texts
    (the elements that follow the whole match in the array returned), or
    [None] for [null]. *)
Definition exec (r : regex) (s : string) : option (list string) :=
  run r (String.list_ascii_of_string s)
      (fun rest => match rest with [] => Some [] | _ => None end).

(** The words a pattern describes. *)
Fixpoint lang (r : regex) (w : list Ascii.ascii) : Prop :=
  match r with
  | Chars cls lo hi =>
    Forall (fun c => inClass cls c = true) w
    /\ (lo <= length w)%nat
    /\ match hi with Some h => (length w <= h)%nat | None => True end
  | Capture r' => lang r' w
  | NonCapture r' => lang r' w
  | Seq r1 r2 => exists w1 w2, w = w1 ++ w2 /\ lang r1 w1 /\ lang r2 w2
  end.

(** The words a pattern describes, with the texts its groups capture. *)
Fixpoint langCaps (r : regex) (w : list Ascii.ascii) (caps : list string) : Prop :=
  match r with
  | Chars _ _ _ => lang r w /\ caps = []
  | Capture r' =>
    exists inner, langCaps r' w inner /\ caps = String.string_of_list_ascii w :: inner
  | NonCapture r' => langCaps r' w caps
  | Seq r1 r2 =>
    exists w1 w2 caps1 caps2,
      w = w1 ++ w2 /\ langCaps r1 w1 caps1 /\ langCaps r2 w2 caps2
      /\ caps = caps1 ++ caps2
  end.

(** [(\d{min,max})] and [[-/ ]]. *)
Definition digits (min max : nat) : regex := Capture (Chars Digit min (Some max)).
Definition separator : regex := Chars Separator 1 (Some 1%nat).

(** An entry of [DateFormats]: the pattern and the general format. *)
Record DateFormat := mkDateFormat { regex_of : regex; format_of : string }.

(** [/^(\d{4})$/] *)
Definition pattern_YYYY : regex := digits 4 4.

(** [/^(\d{4})(?:[-/ ](\d{1,2}))$/] *)
Definition pattern_YYYY_MM : regex :=
  Seq (digits 4 4) (NonCapture (Seq separator (digits 1 2))).

(** [/^(\d{2,4})(?:[-/ ](\d{1,2}))(?:[-/ ](\d{1,2}))$/] *)
Definition pattern_YYYY_MM_DD : regex :=
  Seq (digits 2 4)
      (Seq (NonCapture (Seq separator (digits 1 2)))
           (NonCapture (Seq separator (digits 1 2)))).

(** [/^(\d{1,2})(?:[-/ ]([A-Za-z]+))(?:[-/ ](\d{4}))$/] *)
Definition pattern_DD_MMMM_YYYY : regex :=
  Seq (digits 1 2)
      (Seq (NonCapture (Seq separator (Capture (Chars Letter 1 None))))
           (NonCapture (Seq separator (digits 4 4)))).

(** [/^(\d{1,2})(?:[-/ ](\d{1,2}))(?:[-/ ](\d{4}))$/] *)
Definition pattern_DD_MM_YYYY : regex :=
  Seq (digits 1 2)
      (Seq (NonCapture (Seq separator (digits 1 2)))
           (NonCapture (Seq separator (digits 4 4)))).

(** [/^(\d{1,2})(?:[-/ ](\d{1,2}))$/] *)
Definition pattern_MM_DD : regex :=
  Seq (digits 1 2) (NonCapture (Seq separator (digits 1 2))).

Definition DateFormats : list DateFormat :=
  [ mkDateFormat pattern_YYYY "YYYY";
    mkDateFormat pattern_YYYY_MM "YYYY-MM";
    mkDateFormat pattern_YYYY_MM_DD "YYYY-MM-DD";
    mkDateFormat pattern_DD_MMMM_YYYY "DD-MMMM-YYYY";
    mkDateFormat pattern_DD_MM_YYYY "DD-MM-YYYY";
    mkDateFormat pattern_MM_DD "MM-DD" ].

(** The number of characters of [w] in the class. *)
Definition countClass (k : charClass) (w : list Ascii.ascii) : nat :=
  length (filter (fun c => inClass k c = true) w).

(** ** Sample data *)

(** Modelled from the spec: the data files are not among the sources.  Three
    years of [DaysInMonthsMappingData] and four entries of
    [NewYearMappingData] in the shape section 3 describes (twelve month
    lengths that sum to 365 or 366, New Years in increasing order), with the
    lengths the comment in [addMonths] gives for 2075 (Ashad has 32 days,
    Shrawan 31); and readers of the [YYYY-MM-DD] format for the parser and
    for the platform.  The theorems hold for every table; the sample
    instantiates them. *)

Module Sample.

Definition daysInMonthMap : gmap Z (list Z) :=
  {[ 2075 := [31; 31; 32; 31; 31; 31; 30; 29; 30; 29; 30; 30];
     2076 := [31; 32; 31; 32; 31; 30; 30; 30; 29; 29; 30; 30];
     2077 := [31; 32; 31; 32; 31; 30; 30; 30; 29; 30; 29; 31] ]}.

Definition newYearMap : gmap Z GregorianDate :=
  {[ 2075 := mkGregorian 2018 4 14;
     2076 := mkGregorian 2019 4 14;
     2077 := mkGregorian 2020 4 13;
     2078 := mkGregorian 2021 4 14 ]}.

Definition digitValue (c : Ascii.ascii) : option Z :=
  let n := Ascii.nat_of_ascii c in
  if (48 <=? n)%nat && (n <=? 57)%nat then Some (Z.of_nat (n - 48)) else None.

Fixpoint digitsValue (acc : Z) (s : string) : option Z :=
  match s with
  | EmptyString => Some acc
  | String c rest =>
    match digitValue c with
    | Some d => digitsValue (10 * acc + d) rest
    | None => None
    end
  end.

(** A reader of four digits, a dash, two digits, a dash and two digits,
    which rejects a day the table does not have. *)
Definition parse (s : string) : parsed :=
  if (String.length s =? 10)%nat
     && String.eqb (String.substring 4 1 s) "-"
     && String.eqb (String.substring 7 1 s) "-"
  then
    match digitsValue 0 (String.substring 0 4 s),
          digitsValue 0 (String.substring 5 2 s),
          digitsValue 0 (String.substring 8 2 s) with
    | Some y, Some m, Some d =>
      match isDayValid daysInMonthMap (Int y) (Int m) (Int d) with
      | Ok true => ParseDate (Some (Int y)) (Some (Int m)) (Some (Int d))
      | _ => ParseInvalid InvalidDate
      end
    | _, _, _ => ParseInvalid InvalidDate
    end
  else ParseInvalid InvalidDate.

(** The platform's [Date] parser, for the same format. *)
Definition parseAD (s : string) : JSDate :=
  if (String.length s =? 10)%nat
     && String.eqb (String.substring 4 1 s) "-"
     && String.eqb (String.substring 7 1 s) "-"
  then
    match digitsValue 0 (String.substring 0 4 s),
          digitsValue 0 (String.substring 5 2 s),
          digitsValue 0 (String.substring 8 2 s) with
    | Some y, Some m, Some d =>
      if valid (mkGregorian y m d) then Some (mkGregorian y m d) else None
    | _, _, _ => None
    end
  else None.

Definition generateDateFormatOrder (dateFormat : string) : list string :=
  ["year"; "month"; "day"].

Definition now : GregorianDate := mkGregorian 2026 1 1.

End Sample.

(** ** Facts about the Gregorian date primitive *)

Ltac split_month m :=
  let H := fresh "Hm" in
  assert (H : m = 1 \/ m = 2 \/ m = 3 \/ m = 4 \/ m = 5 \/ m = 6 \/ m = 7
              \/ m = 8 \/ m = 9 \/ m = 10 \/ m = 11 \/ m = 12) by lia;
  repeat (destruct H as [H | H]); subst m.

Lemma valid_spec g :
  valid g = true <->
  1 <= gMonth g <= 12 /\ 1 <= gDay g <= monthLength (gYear g) (gMonth g).
Proof.
  unfold valid. rewrite !andb_true_iff, !Z.leb_le. tauto.
Qed.

Lemma daysBeforeYear_succ y :
  daysBeforeYear (y + 1) = daysBeforeYear y + (if isLeap y then 366 else 365).
Proof.
  unfold daysBeforeYear, isLeap.
  replace (y + 1 - 1) with y by lia.
  destruct (y mod 4 =? 0) eqn:E4; destruct (y mod 100 =? 0) eqn:E100;
    destruct (y mod 400 =? 0) eqn:E400; simpl;
    rewrite ?Z.eqb_eq, ?Z.eqb_neq in *; Z.div_mod_to_equations; lia.
Qed.

Lemma daysBeforeYear_mono y1 y2 :
  y1 < y2 -> daysBeforeYear (y1 + 1) <= daysBeforeYear y2.
Proof. unfold daysBeforeYear. intros H. Z.div_mod_to_equations. lia. Qed.

Lemma daysBeforeMonth_succ y m :
  1 <= m < 12 ->
  daysBeforeMonth y (m + 1) = daysBeforeMonth y m + monthLength y m.
Proof.
  intros Hm. split_month m; try lia;
    unfold daysBeforeMonth, monthLength; simpl; destruct (isLeap y); lia.
Qed.

Lemma monthLength_pos y m : 28 <= monthLength y m <= 31.
Proof.
  unfold monthLength.
  repeat match goal with |- context [if ?c then _ else _] => destruct c end; lia.
Qed.

Lemma dayOfYear_bounds y m d :
  1 <= m <= 12 -> 1 <= d <= monthLength y m ->
  1 <= daysBeforeMonth y m + d <= (if isLeap y then 366 else 365).
Proof.
  intros Hm Hd. split_month m; try lia; revert Hd;
    unfold daysBeforeMonth, monthLength; simpl; destruct (isLeap y); lia.
Qed.

Lemma nextDay_spec g :
  valid g = true ->
  dayNumber (nextDay g) = dayNumber g + 1 /\ valid (nextDay g) = true.
Proof.
  destruct g as [y m d]. rewrite valid_spec. simpl. intros [Hm Hd].
  unfold nextDay. simpl.
  destruct (d <? monthLength y m) eqn:Ed.
  - apply Z.ltb_lt in Ed. rewrite valid_spec. unfold dayNumber. simpl. lia.
  - apply Z.ltb_ge in Ed. destruct (m <? 12) eqn:Em.
    + apply Z.ltb_lt in Em. rewrite valid_spec. unfold dayNumber. simpl.
      rewrite daysBeforeMonth_succ by lia.
      pose proof (monthLength_pos y (m + 1)). lia.
    + apply Z.ltb_ge in Em. assert (m = 12) by lia. subst m.
      rewrite valid_spec. unfold dayNumber. simpl.
      rewrite daysBeforeYear_succ.
      revert Hd Ed. unfold daysBeforeMonth, monthLength. simpl.
      destruct (isLeap y), (isLeap (y + 1)); lia.
Qed.

Lemma prevDay_spec g :
  valid g = true ->
  dayNumber (prevDay g) = dayNumber g - 1 /\ valid (prevDay g) = true.
Proof.
  destruct g as [y m d]. rewrite valid_spec. simpl. intros [Hm Hd].
  unfold prevDay. simpl.
  destruct (1 <? d) eqn:Ed.
  - apply Z.ltb_lt in Ed. rewrite valid_spec. unfold dayNumber. simpl. lia.
  - apply Z.ltb_ge in Ed. destruct (1 <? m) eqn:Em.
    + apply Z.ltb_lt in Em. rewrite valid_spec. unfold dayNumber. simpl.
      pose proof (daysBeforeMonth_succ y (m - 1)) as Hs.
      replace (m - 1 + 1) with m in Hs by lia.
      pose proof (monthLength_pos y (m - 1)). lia.
    + apply Z.ltb_ge in Em. assert (m = 1) by lia. subst m.
      rewrite valid_spec. unfold dayNumber. simpl.
      pose proof (daysBeforeYear_succ (y - 1)) as Hs.
      replace (y - 1 + 1) with y in Hs by lia.
      revert Hs. unfold daysBeforeMonth, monthLength. simpl.
      destruct (isLeap (y - 1)), (isLeap y); lia.
Qed.

Lemma iter_nextDay_spec n g :
  valid g = true ->
  dayNumber (Nat.iter n nextDay g) = dayNumber g + Z.of_nat n
  /\ valid (Nat.iter n nextDay g) = true.
Proof.
  intros Hg. induction n as [|n [IHd IHv]].
  - simpl. split; [lia | exact Hg].
  - rewrite Nat.iter_succ.
    destruct (nextDay_spec _ IHv) as [Hd Hv]. split; [lia | exact Hv].
Qed.

Lemma iter_prevDay_spec n g :
  valid g = true ->
  dayNumber (Nat.iter n prevDay g) = dayNumber g - Z.of_nat n
  /\ valid (Nat.iter n prevDay g) = true.
Proof.
  intros Hg. induction n as [|n [IHd IHv]].
  - simpl. split; [lia | exact Hg].
  - rewrite Nat.iter_succ.
    destruct (prevDay_spec _ IHv) as [Hd Hv]. split; [lia | exact Hv].
Qed.

Lemma shift_spec g n :
  valid g = true ->
  dayNumber (shift g n) = dayNumber g + n /\ valid (shift g n) = true.
Proof.
  intros Hg. unfold shift. destruct (0 <=? n) eqn:En.
  - apply Z.leb_le in En.
    destruct (iter_nextDay_spec (Z.to_nat n) g Hg) as [Hd Hv]. split; [lia | exact Hv].
  - apply Z.leb_gt in En.
    destruct (iter_prevDay_spec (Z.to_nat (- n)) g Hg) as [Hd Hv]. split; [lia | exact Hv].
Qed.

Lemma daysBeforeMonth_mono y m1 m2 :
  1 <= m1 -> m1 < m2 -> m2 <= 12 ->
  daysBeforeMonth y m1 + monthLength y m1 <= daysBeforeMonth y m2.
Proof.
  intros H1 H12 H2. split_month m1; try lia; split_month m2; try lia;
    unfold daysBeforeMonth, monthLength; simpl; destruct (isLeap y); lia.
Qed.

Lemma dayNumber_inj a b :
  valid a = true -> valid b = true -> dayNumber a = dayNumber b -> a = b.
Proof.
  destruct a as [ya ma da], b as [yb mb db]. rewrite !valid_spec. simpl.
  intros [Hma Hda] [Hmb Hdb]. unfold dayNumber. simpl. intros Heq.
  pose proof (dayOfYear_bounds ya ma da Hma Hda) as Ba.
  pose proof (dayOfYear_bounds yb mb db Hmb Hdb) as Bb.
  assert (ya = yb) as ->.
  { destruct (Z.lt_trichotomy ya yb) as [Hlt | [Heqy | Hgt]]; [|exact Heqy|].
    - pose proof (daysBeforeYear_mono ya yb Hlt) as Hmono.
      rewrite daysBeforeYear_succ in Hmono. destruct (isLeap ya); lia.
    - pose proof (daysBeforeYear_mono yb ya ltac:(lia)) as Hmono.
      rewrite daysBeforeYear_succ in Hmono. destruct (isLeap yb); lia. }
  assert (ma = mb) as ->.
  { destruct (Z.lt_trichotomy ma mb) as [Hlt | [Heqm | Hgt]]; [|exact Heqm|].
    - pose proof (daysBeforeMonth_mono yb ma mb ltac:(lia) Hlt ltac:(lia)). lia.
    - pose proof (daysBeforeMonth_mono yb mb ma ltac:(lia) ltac:(lia) ltac:(lia)). lia. }
  f_equal. lia.
Qed.

Lemma shift_daysBetween a b :
  valid a = true -> valid b = true ->
  shift b (dayNumber a - dayNumber b) = a.
Proof.
  intros Ha Hb. destruct (shift_spec b (dayNumber a - dayNumber b) Hb) as [Hd Hv].
  apply dayNumber_inj; [exact Hv | exact Ha | lia].
Qed.

(** ** Printing numbers *)

Lemma isDigit_pretty_N_char x : isDigit (pretty_N_char x) = true.
Proof. unfold pretty_N_char. repeat case_match; reflexivity. Qed.

Lemma pretty_N_go_digit x s :
  (0 < x < 10)%N -> pretty_N_go x s = String (pretty_N_char x) s.
Proof.
  intros Hx. rewrite pretty_N_go_step by lia.
  rewrite (N.div_small x 10), (N.mod_small x 10) by lia.
  apply pretty_N_go_0.
Qed.

Lemma pretty_Z_pos z :
  0 < z -> pretty z = pretty_N_go (Z.to_N z) "".
Proof.
  intros Hz. destruct z as [|p|p]; try lia.
  reflexivity.
Qed.

(** A number of [1..9] prints as one digit and one of [10..99] as two. *)
Lemma pretty_one_digit z :
  1 <= z <= 9 -> exists a, pretty z = String a "" /\ isDigit a = true.
Proof.
  intros Hz. rewrite pretty_Z_pos by lia.
  rewrite pretty_N_go_digit by lia.
  eexists. split; [reflexivity | apply isDigit_pretty_N_char].
Qed.

Lemma pretty_two_digits z :
  10 <= z <= 99 ->
  exists a b, pretty z = String a (String b "") /\ isDigit a = true /\ isDigit b = true.
Proof.
  intros Hz. rewrite pretty_Z_pos by lia.
  rewrite pretty_N_go_step by lia.
  assert (0 < Z.to_N z / 10 < 10)%N as Hq.
  { split; [apply N.div_str_pos; lia | apply N.Div0.div_lt_upper_bound; lia]. }
  rewrite pretty_N_go_digit by exact Hq.
  do 2 eexists. split; [reflexivity|]. split; apply isDigit_pretty_N_char.
Qed.

Lemma pretty_four_digits z :
  1000 <= z <= 9999 ->
  exists a b c d,
    pretty z = String a (String b (String c (String d "")))
    /\ isDigit a = true /\ isDigit b = true /\ isDigit c = true /\ isDigit d = true.
Proof.
  intros Hz. rewrite pretty_Z_pos by lia.
  set (n := Z.to_N z). assert (1000 <= n <= 9999)%N as Hn by lia.
  rewrite pretty_N_go_step by lia.
  assert (100 <= n / 10 <= 999)%N as H1.
  { split; [apply N.div_le_lower_bound; lia | ].
    apply N.lt_succ_r. apply N.Div0.div_lt_upper_bound; lia. }
  rewrite pretty_N_go_step by lia.
  assert (10 <= n / 10 / 10 <= 99)%N as H2.
  { split; [apply N.div_le_lower_bound; lia | ].
    apply N.lt_succ_r. apply N.Div0.div_lt_upper_bound; lia. }
  rewrite pretty_N_go_step by lia.
  assert (0 < n / 10 / 10 / 10 < 10)%N as H3.
  { split; [apply N.div_str_pos; lia | apply N.Div0.div_lt_upper_bound; lia]. }
  rewrite pretty_N_go_digit by exact H3.
  do 4 eexists. split; [reflexivity|]. repeat split; apply isDigit_pretty_N_char.
Qed.

(** Padded to two places, a number of [1..99] is two digits. *)
Lemma padStart_two_digits z :
  1 <= z <= 99 ->
  exists a b,
    padStart 2 "0" (pretty z) = String a (String b "")
    /\ isDigit a = true /\ isDigit b = true.
Proof.
  intros Hz. destruct (Z_le_gt_dec z 9) as [Hle | Hgt].
  - destruct (pretty_one_digit z ltac:(lia)) as (a & -> & Ha).
    exists "0"%char, a. split; [reflexivity | split; [reflexivity | exact Ha]].
  - destruct (pretty_two_digits z ltac:(lia)) as (a & b & -> & Ha & Hb).
    exists a, b. split; [reflexivity | split; assumption].
Qed.

Section Printing.

Context (daysInMonthMap : gmap Z (list Z)).
Context (generateDateFormatOrder : string -> list string).

Lemma daysInMonth_Ok y m n :
  daysInMonth daysInMonthMap y m = Ok n ->
  exists months,
    daysInMonthMap !! y = Some months /\ 1 <= m <= 12
    /\ months !! Z.to_nat (m - 1) = Some n.
Proof.
  unfold daysInMonth. intros H.
  destruct (daysInMonthMap !! y) as [months|]; [|discriminate].
  destruct ((1 <=? m) && (m <=? 12)) eqn:Hm; [|discriminate].
  destruct (months !! Z.to_nat (m - 1)) as [n'|] eqn:Hn; [|discriminate].
  injection H as ->. exists months. split; [reflexivity|].
  apply andb_true_iff in Hm as [H1 H2]. apply Z.leb_le in H1, H2.
  split; [lia | exact Hn].
Qed.

Lemma isDayValid_true y m d :
  isDayValid daysInMonthMap y m d = Ok true ->
  exists y' m' d' n,
    y = Int y' /\ m = Int m' /\ d = Int d'
    /\ daysInMonth daysInMonthMap y' m' = Ok n /\ 1 <= d' <= n.
Proof.
  unfold isDayValid. intros H.
  destruct y as [y'|], m as [m'|], d as [d'|]; try discriminate.
  destruct (daysInMonth daysInMonthMap y' m') as [n|] eqn:Hn; [|discriminate].
  injection H as H.
  apply andb_true_iff in H as [H1 H2]. apply Z.leb_le in H1, H2.
  exists y', m', d', n. repeat split; [exact Hn | lia | lia].
Qed.

Lemma printable_spec y months n i :
  printable daysInMonthMap = true ->
  daysInMonthMap !! y = Some months ->
  months !! i = Some n ->
  1000 <= y <= 9999 /\ n <= 99.
Proof.
  unfold printable. intros Hp Hrow Hn.
  rewrite forallb_forall in Hp.
  specialize (Hp (y, months)). cbn in Hp.
  assert (In (y, months) (map_to_list daysInMonthMap)) as Hin.
  { apply list_elem_of_In, elem_of_map_to_list. exact Hrow. }
  apply Hp in Hin. apply andb_true_iff in Hin as [Hy Hall].
  apply andb_true_iff in Hy as [Hy1 Hy2]. apply Z.leb_le in Hy1, Hy2.
  split; [lia|].
  rewrite forallb_forall in Hall.
  apply Z.leb_le, Hall, list_elem_of_In, list_elem_of_lookup. eauto.
Qed.



End Printing.

(** ** Facts about the class *)

Section BikramSambatFacts.

Context (daysInMonthMap : gmap Z (list Z)).
Context (newYearMap : gmap Z GregorianDate).
Context (parse : string -> parsed).
Context (parseAD : string -> JSDate).
Context (generateDateFormatOrder : string -> list string).
Context (now : GregorianDate).

(** A date whose three fields are set to integers. *)
Local Abbreviation date y m d := (mkBS (Some (Int y)) (Some (Int m)) (Some (Int d))).

(** *** [addMonths] *)

Lemma adjustYear_above depth r k b :
  12 < r ->
  adjustYear daysInMonthMap (S depth) (Int r) (Int k) b
  = adjustYear daysInMonthMap depth (Int (r - 12)) (Int (k + 1)) b.
Proof.
  intros Hr. cbn [adjustYear]. unfold MONTHS_IN_A_YEAR. cbn [num_gt].
  replace (12 <? r) with true by (symmetry; apply Z.ltb_lt; lia).
  reflexivity.
Qed.

Lemma adjustYear_below depth r k b :
  r <= 0 ->
  adjustYear daysInMonthMap (S depth) (Int r) (Int k) b
  = adjustYear daysInMonthMap depth (Int (r + 12)) (Int (k - 1)) b.
Proof.
  intros Hr. cbn [adjustYear]. unfold MONTHS_IN_A_YEAR. cbn [num_gt num_le].
  replace (12 <? r) with false by (symmetry; apply Z.ltb_ge; lia).
  replace (r <=? 0) with true by (symmetry; apply Z.leb_le; lia).
  reflexivity.
Qed.

Lemma adjustYear_within depth r k b :
  1 <= r <= 12 ->
  adjustYear daysInMonthMap (S depth) (Int r) (Int k) b
  = adjustYear daysInMonthMap 1 (Int r) (Int k) b.
Proof.
  intros Hr. cbn [adjustYear]. unfold MONTHS_IN_A_YEAR. cbn [num_gt num_le].
  replace (12 <? r) with false by (symmetry; apply Z.ltb_ge; lia).
  replace (r <=? 0) with false by (symmetry; apply Z.leb_gt; lia).
  reflexivity.
Qed.

(** [adjustYear] carries whole years until the month is in [1..12]; the
    number of nested calls is the number of years carried. *)
Lemma adjustYear_carries depth : forall r k b,
  Z.abs ((r - 1) / 12) < Z.of_nat depth ->
  adjustYear daysInMonthMap depth (Int r) (Int k) b
  = adjustYear daysInMonthMap 1 (Int ((r - 1) mod 12 + 1)) (Int (k + (r - 1) / 12)) b.
Proof.
  induction depth as [|depth IH]; intros r k b Hdepth; [lia|].
  destruct (Z_lt_le_dec 12 r) as [Hgt | Hle].
  - rewrite (adjustYear_above depth r k b Hgt).
    assert ((r - 12 - 1) / 12 = (r - 1) / 12 - 1 /\ (r - 12 - 1) mod 12 = (r - 1) mod 12)
      as [Hq Hr] by (Z.div_mod_to_equations; lia).
    rewrite IH by (rewrite Hq; Z.div_mod_to_equations; lia).
    rewrite Hq, Hr.
    replace (k + 1 + ((r - 1) / 12 - 1)) with (k + (r - 1) / 12) by lia.
    reflexivity.
  - destruct (Z_le_gt_dec r 0) as [Hneg | Hpos].
    + rewrite (adjustYear_below depth r k b Hneg).
      assert ((r + 12 - 1) / 12 = (r - 1) / 12 + 1 /\ (r + 12 - 1) mod 12 = (r - 1) mod 12)
        as [Hq Hr] by (Z.div_mod_to_equations; lia).
      rewrite IH by (rewrite Hq; Z.div_mod_to_equations; lia).
      rewrite Hq, Hr.
      replace (k - 1 + ((r - 1) / 12 + 1)) with (k + (r - 1) / 12) by lia.
      reflexivity.
    + assert ((r - 1) / 12 = 0 /\ (r - 1) mod 12 + 1 = r)
        as [Hq Hr] by (Z.div_mod_to_equations; lia).
      rewrite Hq, Hr, Z.add_0_r.
      apply adjustYear_within. lia.
Qed.

(** The month and the years carried are the only normalisation of the
    total: the loops of the specification end in the same pair. *)
Lemma carry_unique total t q :
  1 <= t <= 12 -> t + 12 * q = total ->
  t = (total - 1) mod 12 + 1 /\ q = (total - 1) / 12.
Proof. intros Ht Heq. Z.div_mod_to_equations. lia. Qed.

(** The settled call: the month is stored, the years are added and the day
    is clamped to the length of the month arrived at. *)
Lemma adjustYear_settles y m d t q months dim :
  1 <= t <= 12 ->
  daysInMonthMap !! (y + q) = Some months ->
  months !! Z.to_nat (t - 1) = Some dim ->
  1 <= dim ->
  adjustYear daysInMonthMap 1 (Int t) (Int q) (date y m d)
  = Ok (date (y + q) t (if dim <? d then dim else d)).
Proof.
  intros Ht Hrow Hdim Hpos.
  cbn [adjustYear]. unfold MONTHS_IN_A_YEAR. cbn [num_gt num_le].
  replace (12 <? t) with false by (symmetry; apply Z.ltb_ge; lia).
  replace (t <=? 0) with false by (symmetry; apply Z.leb_gt; lia).
  unfold addYears, setMonth, setYear, getDaysInMonth. cbn.
  rewrite Hrow. cbn.
  replace (0 <=? t - 1) with true by (symmetry; apply Z.leb_le; lia).
  rewrite Hdim. cbn.
  destruct (dim <? d) eqn:Hlt.
  - apply Z.ltb_lt in Hlt.
    replace (d =? 0) with false by (symmetry; apply Z.eqb_neq; lia).
    reflexivity.
  - rewrite andb_false_r. reflexivity.
Qed.

(** C7: [addMonths n] on a set date stores the month [month + n] carried
    into [1..12], adds the years carried (one per 12 months, of either
    sign) to the year, and then clamps the day to the length of the month
    arrived at when the stored day exceeds it. *)
Theorem addMonths_carries_and_clamps depth y m d n months dim :
  Z.abs ((m + n - 1) / 12) < Z.of_nat depth ->
  daysInMonthMap !! (y + (m + n - 1) / 12) = Some months ->
  months !! Z.to_nat ((m + n - 1) mod 12 + 1 - 1) = Some dim ->
  1 <= dim ->
  addMonths daysInMonthMap depth (Int n) (date y m d)
  = Ok (date (y + (m + n - 1) / 12) ((m + n - 1) mod 12 + 1)
             (if dim <? d then dim else d)).
Proof.
  intros Hdepth Hrow Hdim Hpos.
  unfold addMonths. cbn [month year num_add].
  rewrite adjustYear_carries by exact Hdepth.
  rewrite Z.add_0_l.
  apply adjustYear_settles with (months := months); try assumption.
  Z.div_mod_to_equations; lia.
Qed.

(** *** [addYears] *)

(** C10: [addYears] changes the year and nothing else, so a date read from
    a valid text can be moved to a year whose month is shorter than the
    stored day: the day stays, the date is no longer valid, and [toString]
    gives the invalid marker. *)
Theorem addYears_never_clamps :
  (forall n y mv dv,
      addYears (Int n) (mkBS (Some (Int y)) mv dv) = mkBS (Some (Int (y + n))) mv dv)
  /\ (forall s y m d n dim,
      parse s = ParseDate (Some (Int y)) (Some (Int m)) (Some (Int d)) ->
      isDayValid daysInMonthMap (Int y) (Int m) (Int d) = Ok true ->
      daysInMonth daysInMonthMap (y + n) m = Ok dim ->
      dim < d ->
      addYears (Int n) (newBikramSambat parse (BsString s)) = date (y + n) m d
      /\ isDayValid daysInMonthMap (Int (y + n)) (Int m) (Int d) = Ok false
      /\ toString daysInMonthMap (addYears (Int n) (newBikramSambat parse (BsString s)))
         = Ok "Invalid Date").
Proof.
  split; [reflexivity|].
  intros s y m d n dim Hparse Hvalid Hdim Hlt.
  assert (isDayValid daysInMonthMap (Int (y + n)) (Int m) (Int d) = Ok false) as Hinv.
  { cbn [isDayValid]. rewrite Hdim. f_equal.
    apply andb_false_iff. right. apply Z.leb_gt. exact Hlt. }
  assert (addYears (Int n) (newBikramSambat parse (BsString s)) = date (y + n) m d)
    as Hmoved by (unfold newBikramSambat; rewrite Hparse; reflexivity).
  rewrite Hmoved. repeat split; [exact Hinv|].
  unfold toString. cbn [year month day]. rewrite Hinv. reflexivity.
Qed.

(** *** [toGregorian] on an unset date *)

Lemma truthyInt_truthy v : truthy v = false -> truthyInt v = None.
Proof.
  destruct v as [[z|]|]; cbn; try reflexivity.
  destruct (z =? 0); [reflexivity | discriminate].
Qed.

(** C5, as the code has it: when a field is [undefined], [0] or [NaN],
    [toGregorian] returns the system date and raises nothing; so does the
    static variant for [undefined] and for a text the parser rejects. *)
Theorem toGregorian_unset_returns_now :
  (forall b,
      truthy (year b) && truthy (month b) && truthy (day b) = false ->
      toGregorian daysInMonthMap newYearMap now b = Ok (Some now))
  /\ static_toGregorian daysInMonthMap newYearMap parse now BsUndefined = Ok (Some now)
  /\ (forall s marker,
      parse s = ParseInvalid marker ->
      static_toGregorian daysInMonthMap newYearMap parse now (BsString s) = Ok (Some now)).
Proof.
  split; [|split].
  - intros b H. unfold toGregorian.
    apply andb_false_iff in H as [H | H]; [apply andb_false_iff in H as [H | H]|];
      rewrite (truthyInt_truthy _ H);
      repeat match goal with |- context [match ?x with _ => _ end] => destruct x end;
      reflexivity.
  - reflexivity.
  - intros s marker H. unfold static_toGregorian, newBikramSambat. rewrite H. reflexivity.
Qed.

(** *** Construction and [toBikramSambat] on bad input *)

(** C8: the constructor gives the unset date for [undefined] and for a text
    the parser rejects, and [toBikramSambat] gives it for [undefined], the
    empty text, a text that is no date, and the invalid [Date]; nothing is
    thrown at any depth of the stack. *)
Theorem bad_input_gives_unset depth :
  newBikramSambat parse BsUndefined = unset
  /\ (forall s marker,
      parse s = ParseInvalid marker -> newBikramSambat parse (BsString s) = unset)
  /\ toBikramSambat daysInMonthMap newYearMap parse parseAD depth AdUndefined = Ok unset
  /\ toBikramSambat daysInMonthMap newYearMap parse parseAD depth (AdString "") = Ok unset
  /\ (forall s,
      parseAD s = None ->
      toBikramSambat daysInMonthMap newYearMap parse parseAD depth (AdString s) = Ok unset)
  /\ toBikramSambat daysInMonthMap newYearMap parse parseAD depth (AdDate None) = Ok unset.
Proof.
  repeat split.
  - intros s marker H. unfold newBikramSambat. rewrite H. reflexivity.
  - intros s H. unfold toBikramSambat. rewrite H.
    destruct (String.eqb s ""); reflexivity.
Qed.

(** *** Printing the copy of an unset date *)


(** *** The neighbouring months *)

Lemma getPreviousMonth_null b :
  month b = None -> getPreviousMonth b = MonthNull /\ getNextMonth b = MonthNull.
Proof. intros H. unfold getPreviousMonth, getNextMonth. rewrite H. split; reflexivity. Qed.

(** The descriptor of month [m], counted from 1. *)
Lemma getPreviousMonth_cyclic yv dv m :
  1 <= m <= 12 ->
  getPreviousMonth (mkBS yv (Some (Int m)) dv)
  = monthAt (Int ((if m =? 1 then 12 else m - 1) - 1))
  /\ index NepaliMonthsData (Int ((if m =? 1 then 12 else m - 1) - 1)) <> None.
Proof.
  intros Hm.
  assert (m = 1 \/ m = 2 \/ m = 3 \/ m = 4 \/ m = 5 \/ m = 6 \/ m = 7
          \/ m = 8 \/ m = 9 \/ m = 10 \/ m = 11 \/ m = 12) as H by lia.
  repeat (destruct H as [H | H]); subst m; (split; [reflexivity | vm_compute; discriminate]).
Qed.

Lemma getNextMonth_cyclic_but_one yv dv m :
  1 <= m <= 12 -> m <> 11 ->
  getNextMonth (mkBS yv (Some (Int m)) dv)
  = monthAt (Int ((if m =? 12 then 1 else m + 1) - 1))
  /\ index NepaliMonthsData (Int ((if m =? 12 then 1 else m + 1) - 1)) <> None.
Proof.
  intros Hm Hne.
  assert (m = 1 \/ m = 2 \/ m = 3 \/ m = 4 \/ m = 5 \/ m = 6 \/ m = 7
          \/ m = 8 \/ m = 9 \/ m = 10 \/ m = 12) as H by lia.
  repeat (destruct H as [H | H]); subst m; (split; [reflexivity | vm_compute; discriminate]).
Qed.

(** C6, where the code departs from it: in month 11 the remainder
    [(11 + 1) % 12] is 0, the array is read at [-1], and [getNextMonth]
    evaluates to [undefined] instead of the descriptor of Chaitra. *)
Theorem getNextMonth_of_month_11 yv dv :
  getNextMonth (mkBS yv (Some (Int 11)) dv) = MonthUndefined
  /\ monthAt (Int (12 - 1)) = MonthOf (mkMonth "Chaitra" "चैत्र" "Mar/Apr").
Proof. split; reflexivity. Qed.

End BikramSambatFacts.

(** ** Sums of month lengths *)

Lemma sumZ_app l1 l2 : sumZ (l1 ++ l2) = sumZ l1 + sumZ l2.
Proof. induction l1 as [|x l1 IH]; cbn; [reflexivity | unfold sumZ in *; cbn; lia]. Qed.

Lemma sumZ_nonneg l : Forall (fun n => 1 <= n) l -> 0 <= sumZ l.
Proof.
  induction 1 as [|x l Hx _ IH]; unfold sumZ in *; cbn; lia.
Qed.

Lemma sumZ_take_le l k : Forall (fun n => 1 <= n) l -> sumZ (take k l) <= sumZ l.
Proof.
  intros Hl. rewrite <- (take_drop k l) at 2. rewrite sumZ_app.
  pose proof (sumZ_nonneg (drop k l) (Forall_drop _ _ _ Hl)). lia.
Qed.

Lemma sumZ_take_S l k n :
  l !! k = Some n -> sumZ (take (S k) l) = sumZ (take k l) + n.
Proof.
  intros H. rewrite (take_S_r _ _ _ H), sumZ_app. unfold sumZ. cbn. lia.
Qed.

(** Every day of the year falls in one month: an offset in [1..sumZ l] is a
    day [d] of the month at some index [j], after the months before it. *)
Lemma month_of_offset l : forall r,
  Forall (fun n => 1 <= n) l -> 1 <= r <= sumZ l ->
  exists j n d, l !! j = Some n /\ 1 <= d <= n /\ r = sumZ (take j l) + d.
Proof.
  induction l as [|x l IH]; intros r Hl Hr.
  - unfold sumZ in Hr. cbn in Hr. lia.
  - apply Forall_cons in Hl as [Hx Hl].
    destruct (Z_le_gt_dec r x) as [Hle | Hgt].
    + exists 0%nat, x, r. split; [reflexivity|]. split; [lia|].
      unfold sumZ. cbn. lia.
    + destruct (IH (r - x) Hl) as (j & n & d & Hj & Hd & Hsum).
      { unfold sumZ in *. cbn in Hr. lia. }
      exists (S j), n, d. split; [exact Hj|]. split; [exact Hd|].
      cbn [take]. unfold sumZ in *. cbn. lia.
Qed.

Section Conversions.

Context (daysInMonthMap : gmap Z (list Z)).
Context (newYearMap : gmap Z GregorianDate).
Context (parse : string -> parsed).
Context (parseAD : string -> JSDate).
Context (now : GregorianDate).

Local Abbreviation date y m d := (mkBS (Some (Int y)) (Some (Int m)) (Some (Int d))).

(** *** The tables *)

Lemma tabulated_spec y :
  tabulated daysInMonthMap newYearMap y = true ->
  exists months ny ny',
    daysInMonthMap !! y = Some months /\ newYearMap !! y = Some ny
    /\ newYearMap !! (y + 1) = Some ny'
    /\ y <> 0 /\ length months = 12%nat /\ Forall (fun n => 1 <= n) months
    /\ valid ny = true /\ dayNumber ny' = dayNumber ny + sumZ months.
Proof.
  unfold tabulated. intros H.
  destruct (daysInMonthMap !! y) as [months|]; [|discriminate].
  destruct (newYearMap !! y) as [ny|]; [|discriminate].
  destruct (newYearMap !! (y + 1)) as [ny'|]; [|discriminate].
  repeat (apply andb_true_iff in H as [H ?]).
  exists months, ny, ny'. repeat split; try reflexivity.
  - apply negb_true_iff, Z.eqb_neq in H. exact H.
  - apply Nat.eqb_eq. assumption.
  - apply Forall_forall. intros n Hn.
    apply Z.leb_le. eapply forallb_forall; [eassumption|].
    apply list_elem_of_In. exact Hn.
  - assumption.
  - apply Z.eqb_eq. assumption.
Qed.

Lemma newYearsIncreasing_spec y1 y2 g1 g2 :
  newYearsIncreasing newYearMap = true ->
  newYearMap !! y1 = Some g1 -> newYearMap !! y2 = Some g2 ->
  y1 <= y2 -> dayNumber g1 <= dayNumber g2.
Proof.
  unfold newYearsIncreasing. intros H H1 H2 Hle.
  rewrite forallb_forall in H.
  specialize (H (y1, g1)). rewrite forallb_forall in H.
  assert (In (y1, g1) (map_to_list newYearMap)) as Hin1
      by (apply list_elem_of_In, elem_of_map_to_list; exact H1).
  assert (In (y2, g2) (map_to_list newYearMap)) as Hin2
      by (apply list_elem_of_In, elem_of_map_to_list; exact H2).
  specialize (H Hin1 (y2, g2) Hin2). cbn in H.
  replace (y1 <=? y2) with true in H by (symmetry; apply Z.leb_le; exact Hle).
  apply Z.leb_le. exact H.
Qed.

Lemma tabulatedYears_spec y :
  In y (tabulatedYears newYearMap) <-> is_Some (newYearMap !! y).
Proof.
  unfold tabulatedYears. rewrite <- list_elem_of_In.
  rewrite merge_sort_Permutation, elem_of_elements, elem_of_dom. reflexivity.
Qed.

Lemma inNewYearInterval_spec g y :
  inNewYearInterval newYearMap g y = true <->
  exists ny ny', newYearMap !! y = Some ny /\ newYearMap !! (y + 1) = Some ny'
                 /\ dayNumber ny <= dayNumber g < dayNumber ny'.
Proof.
  unfold inNewYearInterval. split.
  - destruct (newYearMap !! y) as [ny|]; [|discriminate].
    destruct (newYearMap !! (y + 1)) as [ny'|]; [|discriminate].
    intros H. apply andb_true_iff in H as [H1 H2].
    apply Z.leb_le in H1. apply Z.ltb_lt in H2.
    exists ny, ny'. repeat split; assumption.
  - intros (ny & ny' & -> & -> & H1 & H2).
    apply andb_true_iff. split; [apply Z.leb_le | apply Z.ltb_lt]; assumption.
Qed.

(** The resolver finds the year of the interval the date falls in: no other
    tabulated year qualifies when the New Years do not decrease. *)
Lemma getNewYearDateInfo_found g y ny :
  newYearsIncreasing newYearMap = true ->
  inNewYearInterval newYearMap g y = true ->
  newYearMap !! y = Some ny ->
  getNewYearDateInfo newYearMap g = Ok (ny, y).
Proof.
  intros Hinc Hin Hny. unfold getNewYearDateInfo.
  destruct (find (inNewYearInterval newYearMap g) (tabulatedYears newYearMap))
    as [y0|] eqn:Hfind.
  - apply find_some in Hfind as [_ Hin0].
    apply inNewYearInterval_spec in Hin as (n1 & n1' & Hn1 & Hn1' & Hlo & Hhi).
    apply inNewYearInterval_spec in Hin0 as (n0 & n0' & Hn0 & Hn0' & Hlo0 & Hhi0).
    assert (y0 = y) as ->.
    { destruct (Z.lt_trichotomy y0 y) as [Hlt | [Heq | Hgt]]; [|exact Heq|].
      - pose proof (newYearsIncreasing_spec (y0 + 1) y n0' n1 Hinc Hn0' Hn1 ltac:(lia)).
        lia.
      - pose proof (newYearsIncreasing_spec (y + 1) y0 n1' n0 Hinc Hn1' Hn0 ltac:(lia)).
        lia. }
    rewrite Hny. reflexivity.
  - exfalso.
    pose proof (find_none _ _ Hfind y) as Hnone.
    rewrite Hnone in Hin; [discriminate|].
    apply tabulatedYears_spec. rewrite Hny. eauto.
Qed.

(** *** Walking forward through the months of one year *)

(** The settled call of [adjustYear], whatever the day: the month and the
    year are stored, and the day is kept or clamped. *)
Lemma adjustYear_settled_fields y mv dv t q months n :
  1 <= t <= 12 ->
  daysInMonthMap !! (y + q) = Some months ->
  months !! Z.to_nat (t - 1) = Some n ->
  exists dv',
    adjustYear daysInMonthMap 1 (Int t) (Int q) (mkBS (Some (Int y)) mv dv)
    = Ok (mkBS (Some (Int (y + q))) (Some (Int t)) dv').
Proof.
  intros Ht Hrow Hn.
  cbn [adjustYear]. unfold MONTHS_IN_A_YEAR. cbn [num_gt num_le].
  replace (12 <? t) with false by (symmetry; apply Z.ltb_ge; lia).
  replace (t <=? 0) with false by (symmetry; apply Z.leb_gt; lia).
  unfold addYears, setMonth, setYear, getDaysInMonth.
  cbn [year month day monthsOf num_add num_sub].
  rewrite Hrow. cbn [index bind].
  replace (0 <=? t - 1) with true by (symmetry; apply Z.leb_le; lia).
  rewrite Hn. cbn [fmap option_fmap option_map toNumber default].
  match goal with |- context [if ?c then _ else _] => destruct c end;
    eexists; reflexivity.
Qed.

(** One call of [adjustMonth] on a month whose length is known. *)
Lemma adjustMonth_step depth r b n :
  getDaysInMonth daysInMonthMap b = Ok (Some (Int n)) ->
  adjustMonth daysInMonthMap (S depth) (Int r) b
  = if n <? r then
      b' <~ addMonths daysInMonthMap depth (Int 1) b;;
      adjustMonth daysInMonthMap depth (Int (r - n)) b'
    else if r <=? 0 then
      b' <~ addMonths daysInMonthMap depth (Int (-1)) b;;
      adjustMonth daysInMonthMap depth (Int (n + r)) b'
    else Ok (setDay (Some (Int r)) b).
Proof. intros H. cbn [adjustMonth]. rewrite H. reflexivity. Qed.

Section OneYear.

Context (y : Z) (months : list Z).
Hypothesis Hrow : daysInMonthMap !! y = Some months.
Hypothesis Hlen : length months = 12%nat.
Hypothesis Hpos : Forall (fun n => 1 <= n) months.

Lemma getDaysInMonth_at i n dv :
  months !! i = Some n ->
  getDaysInMonth daysInMonthMap (mkBS (Some (Int y)) (Some (Int (Z.of_nat (S i)))) dv)
  = Ok (Some (Int n)).
Proof.
  intros Hn. unfold getDaysInMonth. cbn [month year monthsOf num_sub].
  rewrite Hrow. cbn [index].
  replace (0 <=? Z.of_nat (S i) - 1) with true by (symmetry; apply Z.leb_le; lia).
  replace (Z.to_nat (Z.of_nat (S i) - 1)) with i by lia.
  rewrite Hn. reflexivity.
Qed.

(** One month on, inside the year. *)
Lemma addMonths_next_month depth i n dv :
  months !! S i = Some n ->
  exists dv',
    addMonths daysInMonthMap (S depth) (Int 1)
              (mkBS (Some (Int y)) (Some (Int (Z.of_nat (S i)))) dv)
    = Ok (mkBS (Some (Int y)) (Some (Int (Z.of_nat (S (S i))))) dv').
Proof.
  intros Hn.
  assert (S i < 12)%nat as Hi by (apply lookup_lt_Some in Hn; lia).
  unfold addMonths. cbn [month year num_add].
  rewrite adjustYear_within by lia.
  destruct (adjustYear_settled_fields y (Some (Int (Z.of_nat (S i)))) dv
              (Z.of_nat (S i) + 1) 0 months n) as [dv' Hdv'].
  - lia.
  - rewrite Z.add_0_r. exact Hrow.
  - replace (Z.to_nat (Z.of_nat (S i) + 1 - 1)) with (S i) by lia. exact Hn.
  - exists dv'. rewrite Hdv'. rewrite Z.add_0_r.
    replace (Z.of_nat (S i) + 1) with (Z.of_nat (S (S i))) by lia. reflexivity.
Qed.

(** From month [i + 1] with [remainingDays] equal to the lengths of the
    next [j] months plus a day [d] of the month after them, [adjustMonth]
    steps [j] months forward and stores [d]. *)
Lemma adjustMonth_forward j : forall i dv depth n d,
  months !! (i + j)%nat = Some n ->
  1 <= d <= n ->
  (j < depth)%nat ->
  adjustMonth daysInMonthMap depth
              (Int (sumZ (take j (drop i months)) + d))
              (mkBS (Some (Int y)) (Some (Int (Z.of_nat (S i)))) dv)
  = Ok (date y (Z.of_nat (S (i + j))) d).
Proof.
  induction j as [|j IH]; intros i dv depth n d Hn Hd Hdepth.
  - destruct depth as [|depth]; [lia|].
    rewrite Nat.add_0_r in *.
    rewrite (adjustMonth_step _ _ _ n (getDaysInMonth_at i n dv Hn)).
    change (sumZ (take 0 (drop i months))) with 0.
    replace (n <? 0 + d) with false by (symmetry; apply Z.ltb_ge; lia).
    replace (0 + d <=? 0) with false by (symmetry; apply Z.leb_gt; lia).
    reflexivity.
  - destruct depth as [|depth]; [lia|].
    assert (i + S j < 12)%nat as Hij by (apply lookup_lt_Some in Hn; lia).
    destruct (lookup_lt_is_Some_2 months i ltac:(lia)) as [ni Hni].
    destruct (lookup_lt_is_Some_2 months (S i) ltac:(lia)) as [ni' Hni'].
    assert (1 <= ni) as Hni1
        by (eapply (proj1 (Forall_lookup _ _) Hpos); exact Hni).
    assert (0 <= sumZ (take j (drop (S i) months))) as Hrest.
    { apply sumZ_nonneg, Forall_take, Forall_drop, Hpos. }
    assert (sumZ (take (S j) (drop i months))
            = ni + sumZ (take j (drop (S i) months))) as Hsum.
    { rewrite (drop_S _ _ _ Hni). cbn [take]. unfold sumZ. cbn. lia. }
    rewrite Hsum.
    rewrite (adjustMonth_step _ _ _ ni (getDaysInMonth_at i ni dv Hni)).
    replace (ni <? ni + sumZ (take j (drop (S i) months)) + d) with true
      by (symmetry; apply Z.ltb_lt; lia).
    destruct depth as [|depth]; [lia|].
    destruct (addMonths_next_month depth i ni' dv Hni') as [dv' ->].
    cbn [bind].
    replace (ni + sumZ (take j (drop (S i) months)) + d - ni)
      with (sumZ (take j (drop (S i) months)) + d) by lia.
    rewrite (IH (S i) dv' (S depth) n d); [| | exact Hd | lia].
    + replace (S i + j)%nat with (i + S j)%nat by lia. reflexivity.
    + replace (S i + j)%nat with (i + S j)%nat by lia. exact Hn.
Qed.

(** The offset of a date from the New Year: the lengths of the months
    before it, plus the day. *)
Lemma daysBeforeBsMonth_sum k :
  (k <= 12)%nat ->
  daysBeforeBsMonth daysInMonthMap y k = Ok (sumZ (take k months)).
Proof.
  induction k as [|k IH]; intros Hk; [reflexivity|].
  cbn [daysBeforeBsMonth]. rewrite IH by lia. cbn [bind].
  destruct (lookup_lt_is_Some_2 months k ltac:(lia)) as [n Hn].
  unfold daysInMonth. rewrite Hrow.
  replace ((1 <=? Z.of_nat (S k)) && (Z.of_nat (S k) <=? 12)) with true
    by (symmetry; apply andb_true_iff; split; apply Z.leb_le; lia).
  replace (Z.to_nat (Z.of_nat (S k) - 1)) with k by lia.
  rewrite Hn. cbn [bind]. rewrite (sumZ_take_S _ _ _ Hn). reflexivity.
Qed.

Lemma getDaysFromBsNewYear_sum i d :
  (i < 12)%nat ->
  getDaysFromBsNewYear daysInMonthMap y (Z.of_nat (S i)) d
  = Ok (sumZ (take i months) + d).
Proof.
  intros Hi. unfold getDaysFromBsNewYear.
  replace (Z.to_nat (Z.of_nat (S i) - 1)) with i by lia.
  rewrite daysBeforeBsMonth_sum by lia. reflexivity.
Qed.

(** One month back, inside the year. *)
Lemma addMonths_previous_month depth i n dv :
  months !! i = Some n ->
  (S i < 12)%nat ->
  exists dv',
    addMonths daysInMonthMap (S depth) (Int (-1))
              (mkBS (Some (Int y)) (Some (Int (Z.of_nat (S (S i))))) dv)
    = Ok (mkBS (Some (Int y)) (Some (Int (Z.of_nat (S i)))) dv').
Proof.
  intros Hn Hi.
  unfold addMonths. cbn [month year num_add].
  rewrite adjustYear_within by lia.
  destruct (adjustYear_settled_fields y (Some (Int (Z.of_nat (S (S i))))) dv
              (Z.of_nat (S (S i)) + -1) 0 months n) as [dv' Hdv'].
  - lia.
  - rewrite Z.add_0_r. exact Hrow.
  - replace (Z.to_nat (Z.of_nat (S (S i)) + -1 - 1)) with i by lia. exact Hn.
  - exists dv'. rewrite Hdv'. rewrite Z.add_0_r.
    replace (Z.of_nat (S (S i)) + -1) with (Z.of_nat (S i)) by lia. reflexivity.
Qed.

(** Going back one month, the day stored is the remainder plus the length
    [n] of the month that is left, not the length [n'] of the month that
    is entered. *)
Lemma adjustMonth_backward_step depth i n n' r dv :
  months !! S i = Some n ->
  months !! i = Some n' ->
  r <= 0 -> 0 < n + r <= n' ->
  adjustMonth daysInMonthMap (S (S depth)) (Int r)
              (mkBS (Some (Int y)) (Some (Int (Z.of_nat (S (S i))))) dv)
  = Ok (date y (Z.of_nat (S i)) (n + r)).
Proof.
  intros Hn Hn' Hr Hland.
  assert (S i < 12)%nat as Hi by (apply lookup_lt_Some in Hn; lia).
  rewrite (adjustMonth_step _ _ _ n (getDaysInMonth_at (S i) n dv Hn)).
  replace (n <? r) with false by (symmetry; apply Z.ltb_ge; lia).
  replace (r <=? 0) with true by (symmetry; apply Z.leb_le; lia).
  destruct (addMonths_previous_month depth i n' dv Hn' Hi) as [dv' ->].
  cbn [bind].
  rewrite (adjustMonth_step _ _ _ n' (getDaysInMonth_at i n' dv' Hn')).
  replace (n' <? n + r) with false by (symmetry; apply Z.ltb_ge; lia).
  replace (n + r <=? 0) with false by (symmetry; apply Z.leb_gt; lia).
  reflexivity.
Qed.

End OneYear.

(** *** The two conversions *)

Lemma truthyInt_nonzero z : z <> 0 -> truthyInt (Some (Int z)) = Some z.
Proof. intros H. cbn. apply Z.eqb_neq in H. rewrite H. reflexivity. Qed.

(** [toGregorian] on a date of a tabulated month: the New Year shifted by
    the offset of the date, less one. *)
Lemma toGregorian_of_date y months ny i d :
  daysInMonthMap !! y = Some months ->
  length months = 12%nat ->
  newYearMap !! y = Some ny ->
  y <> 0 -> d <> 0 -> (i < 12)%nat ->
  toGregorian daysInMonthMap newYearMap now (date y (Z.of_nat (S i)) d)
  = Ok (Some (shift ny (sumZ (take i months) + d - 1))).
Proof.
  intros Hrow Hlen Hny Hy Hd Hi. unfold toGregorian. cbn [year month day].
  rewrite (truthyInt_nonzero y Hy), (truthyInt_nonzero d Hd).
  rewrite (truthyInt_nonzero (Z.of_nat (S i))) by lia.
  rewrite (getDaysFromBsNewYear_sum y months Hrow Hlen i d Hi).
  cbn [bind]. rewrite Hny. reflexivity.
Qed.

(** [toBikramSambat] on a date of a tabulated year: the New Year of that
    year, moved forward by the days since. *)
Lemma toBikramSambat_of_date depth g y ny :
  newYearsIncreasing newYearMap = true ->
  inNewYearInterval newYearMap g y = true ->
  newYearMap !! y = Some ny ->
  parse (pretty y +:+ "-01-01") = ParseDate (Some (Int y)) (Some (Int 1)) (Some (Int 1)) ->
  toBikramSambat daysInMonthMap newYearMap parse parseAD depth (AdDate (Some g))
  = adjustMonth daysInMonthMap depth (Int (1 + (dayNumber g - dayNumber ny))) (date y 1 1).
Proof.
  intros Hinc Hin Hny Hparse. unfold toBikramSambat.
  rewrite (getNewYearDateInfo_found g y ny Hinc Hin Hny).
  cbn [bind]. unfold newBikramSambat. rewrite Hparse.
  reflexivity.
Qed.

(** C1: a valid date of a tabulated year, converted to Gregorian and back,
    is the date itself. *)
Theorem toBikramSambat_toGregorian depth y m d :
  newYearsIncreasing newYearMap = true ->
  tabulated daysInMonthMap newYearMap y = true ->
  parse (pretty y +:+ "-01-01") = ParseDate (Some (Int y)) (Some (Int 1)) (Some (Int 1)) ->
  isDayValid daysInMonthMap (Int y) (Int m) (Int d) = Ok true ->
  (12 <= depth)%nat ->
  exists g,
    toGregorian daysInMonthMap newYearMap now (date y m d) = Ok (Some g)
    /\ toBikramSambat daysInMonthMap newYearMap parse parseAD depth (AdDate (Some g))
       = Ok (date y m d).
Proof.
  intros Hinc Htab Hparse Hvalid Hdepth.
  destruct (tabulated_spec y Htab)
    as (months & ny & ny' & Hrow & Hny & Hny' & Hy & Hlen & Hpos & Hvny & Hspan).
  destruct (isDayValid_true _ _ _ _ Hvalid)
    as (y0 & m0 & d0 & n & Ey & Em & Ed & Hn & Hd).
  injection Ey as <-. injection Em as <-. injection Ed as <-.
  destruct (daysInMonth_Ok _ _ _ _ Hn) as (months' & Hrow' & Hm & Hlook).
  rewrite Hrow in Hrow'. injection Hrow' as <-.
  set (i := Z.to_nat (m - 1)).
  assert (m = Z.of_nat (S i)) as Em by lia. assert (i < 12)%nat as Hi by lia.
  fold i in Hlook. rewrite Em.
  set (off := sumZ (take i months) + d - 1).
  assert (0 <= sumZ (take i months)) as Hbefore
      by (apply sumZ_nonneg, Forall_take, Hpos).
  assert (sumZ (take i months) + n <= sumZ months) as Hwithin.
  { rewrite <- (sumZ_take_S _ _ _ Hlook). apply sumZ_take_le, Hpos. }
  destruct (shift_spec ny off Hvny) as [Hdn Hvg].
  exists (shift ny off). split.
  - apply (toGregorian_of_date y months ny i d); try assumption. lia.
  - rewrite (toBikramSambat_of_date depth (shift ny off) y ny); try assumption.
    + rewrite Hdn.
      replace (1 + (dayNumber ny + off - dayNumber ny))
        with (sumZ (take i months) + d) by (unfold off; lia).
      change 1 with (Z.of_nat 1) at 1.
      change (take i months) with (take i (drop 0 months)).
      rewrite (adjustMonth_forward y months Hrow Hlen Hpos i 0%nat
                 (Some (Int 1)) depth n d); [reflexivity | exact Hlook | exact Hd | lia].
    + apply inNewYearInterval_spec. exists ny, ny'.
      split; [exact Hny|]. split; [exact Hny'|]. unfold off in *. lia.
Qed.

(** C2: a Gregorian date that falls in a tabulated year, converted to
    Bikram Sambat and back, is the date itself. *)
Theorem toGregorian_toBikramSambat depth g y :
  newYearsIncreasing newYearMap = true ->
  tabulated daysInMonthMap newYearMap y = true ->
  parse (pretty y +:+ "-01-01") = ParseDate (Some (Int y)) (Some (Int 1)) (Some (Int 1)) ->
  valid g = true ->
  inNewYearInterval newYearMap g y = true ->
  (12 <= depth)%nat ->
  exists b,
    toBikramSambat daysInMonthMap newYearMap parse parseAD depth (AdDate (Some g)) = Ok b
    /\ toGregorian daysInMonthMap newYearMap now b = Ok (Some g).
Proof.
  intros Hinc Htab Hparse Hvg Hin Hdepth.
  destruct (tabulated_spec y Htab)
    as (months & ny & ny' & Hrow & Hny & Hny' & Hy & Hlen & Hpos & Hvny & Hspan).
  pose proof Hin as Hint.
  apply inNewYearInterval_spec in Hint as (ny0 & ny0' & Hny0 & Hny0' & Hlo & Hhi).
  rewrite Hny in Hny0. injection Hny0 as <-.
  rewrite Hny' in Hny0'. injection Hny0' as <-.
  destruct (month_of_offset months (1 + (dayNumber g - dayNumber ny)) Hpos ltac:(lia))
    as (i & n & d & Hlook & Hd & Hsum).
  assert (i < 12)%nat as Hi by (apply lookup_lt_Some in Hlook; lia).
  exists (date y (Z.of_nat (S i)) d). split.
  - rewrite (toBikramSambat_of_date depth g y ny); try assumption.
    rewrite Hsum.
    change 1 with (Z.of_nat 1) at 1.
    replace (take i months) with (take i (drop 0 months)) by reflexivity.
    rewrite (adjustMonth_forward y months Hrow Hlen Hpos i 0%nat
               (Some (Int 1)) depth n d); [reflexivity | exact Hlook | exact Hd | lia].
  - rewrite (toGregorian_of_date y months ny i d); try assumption; [|lia].
    replace (sumZ (take i months) + d - 1) with (dayNumber g - dayNumber ny) by lia.
    rewrite (shift_daysBetween g ny Hvg Hvny). reflexivity.
Qed.

End Conversions.

(** ** The sample tables at work *)

Local Abbreviation date y m d := (mkBS (Some (Int y)) (Some (Int m)) (Some (Int d))).

(** C3, where the code departs from it: one day before 2075-04-01 the code
    gives 2075-03-31, although Ashad 2075 has 32 days.  Going back,
    [adjustMonth] reads the length of the month it is in (Shrawan, 31 days)
    before it calls [addMonths(-1)], and adds that length to the remainder
    instead of the length of the month it has moved into. *)
Theorem addDays_backward_adds_length_of_month_left :
  addDays Sample.daysInMonthMap 8 (Int (-1)) (date 2075 4 1) = Ok (date 2075 3 31)
  /\ daysInMonth Sample.daysInMonthMap 2075 3 = Ok 32
  /\ daysInMonth Sample.daysInMonthMap 2075 4 = Ok 31
  /\ addDays Sample.daysInMonthMap 8 (Int 1) (date 2075 3 32) = Ok (date 2075 4 1).
Proof. repeat split; vm_compute; reflexivity. Qed.

(** C4, where the code departs from it: one day added to a copy of
    2075-03-32 and then taken away gives 2075-03-31, not the date started
    from; the way back goes through the branch of [adjustMonth] that adds the
    length of the month left. *)
Theorem addDays_there_and_back_misses :
  isDayValid Sample.daysInMonthMap (Int 2075) (Int 3) (Int 32) = Ok true
  /\ newBikramSambat Sample.parse (BsInstance (date 2075 3 32)) = date 2075 3 32
  /\ (b <~ addDays Sample.daysInMonthMap 8 (Int 1)
             (newBikramSambat Sample.parse (BsInstance (date 2075 3 32)));;
      addDays Sample.daysInMonthMap 8 (Int (- 1)) b)
     = Ok (date 2075 3 31).
Proof. repeat split; vm_compute; reflexivity. Qed.

(** C5 as worded does not hold: on the unset date [toGregorian] and its
    static variant raise nothing and return the system date. *)
Lemma toGregorian_unset_flags_no_error :
  toGregorian Sample.daysInMonthMap Sample.newYearMap Sample.now unset
  = Ok (Some Sample.now)
  /\ static_toGregorian Sample.daysInMonthMap Sample.newYearMap Sample.parse
                        Sample.now BsUndefined
     = Ok (Some Sample.now)
  /\ ~ (exists e, toGregorian Sample.daysInMonthMap Sample.newYearMap Sample.now unset
                  = Err e).
Proof.
  split; [reflexivity|]. split; [reflexivity|].
  intros [e He]. discriminate He.
Qed.

Lemma toGregorian_unset_returns_now_witness :
  truthy (year unset) && truthy (month unset) && truthy (day unset) = false
  /\ toGregorian Sample.daysInMonthMap Sample.newYearMap Sample.now unset
     = Ok (Some Sample.now)
  /\ Sample.parse "no date" = ParseInvalid InvalidDate
  /\ static_toGregorian Sample.daysInMonthMap Sample.newYearMap Sample.parse
                        Sample.now (BsString "no date")
     = Ok (Some Sample.now).
Proof.
  split; [reflexivity|]. split.
  - apply (proj1 (toGregorian_unset_returns_now Sample.daysInMonthMap Sample.newYearMap
                    Sample.parse Sample.now) unset). reflexivity.
  - split; [reflexivity|].
    apply (proj2 (proj2 (toGregorian_unset_returns_now Sample.daysInMonthMap
                           Sample.newYearMap Sample.parse Sample.now))
                 "no date" InvalidDate).
    reflexivity.
Defined.

Lemma bad_input_gives_unset_witness :
  Sample.parse "2075-13-01" = ParseInvalid InvalidDate
  /\ newBikramSambat Sample.parse (BsString "2075-13-01") = unset
  /\ Sample.parseAD "yesterday" = None
  /\ toBikramSambat Sample.daysInMonthMap Sample.newYearMap Sample.parse Sample.parseAD 8
                    (AdString "yesterday")
     = Ok unset.
Proof.
  pose proof (bad_input_gives_unset Sample.daysInMonthMap Sample.newYearMap
                Sample.parse Sample.parseAD 8) as (_ & Hparse & _ & _ & Hdate & _).
  split; [reflexivity|]. split.
  - apply (Hparse "2075-13-01" InvalidDate). reflexivity.
  - split; [reflexivity|]. apply (Hdate "yesterday"). reflexivity.
Defined.

Lemma addMonths_carries_and_clamps_witness :
  Z.abs ((3 + 1 - 1) / 12) < Z.of_nat 2
  /\ Sample.daysInMonthMap !! (2075 + (3 + 1 - 1) / 12)
     = Some [31; 31; 32; 31; 31; 31; 30; 29; 30; 29; 30; 30]
  /\ [31; 31; 32; 31; 31; 31; 30; 29; 30; 29; 30; 30]
       !! Z.to_nat ((3 + 1 - 1) mod 12 + 1 - 1) = Some 31
  /\ 1 <= 31
  /\ addMonths Sample.daysInMonthMap 2 (Int 1) (date 2075 3 32) = Ok (date 2075 4 31).
Proof.
  split; [reflexivity|]. split; [reflexivity|]. split; [reflexivity|]. split; [lia|].
  apply (addMonths_carries_and_clamps Sample.daysInMonthMap 2 2075 3 32 1
           [31; 31; 32; 31; 31; 31; 30; 29; 30; 29; 30; 30] 31);
    [reflexivity | reflexivity | reflexivity | lia].
Defined.

Lemma addYears_never_clamps_witness :
  Sample.parse "2075-03-32" = ParseDate (Some (Int 2075)) (Some (Int 3)) (Some (Int 32))
  /\ isDayValid Sample.daysInMonthMap (Int 2075) (Int 3) (Int 32) = Ok true
  /\ daysInMonth Sample.daysInMonthMap (2075 + 1) 3 = Ok 31
  /\ 31 < 32
  /\ addYears (Int 1) (newBikramSambat Sample.parse (BsString "2075-03-32"))
     = date 2076 3 32
  /\ toString Sample.daysInMonthMap
              (addYears (Int 1) (newBikramSambat Sample.parse (BsString "2075-03-32")))
     = Ok "Invalid Date".
Proof.
  split; [reflexivity|]. split; [reflexivity|]. split; [reflexivity|]. split; [lia|].
  destruct (proj2 (addYears_never_clamps Sample.daysInMonthMap Sample.parse)
                  "2075-03-32" 2075 3 32 1 31) as (Hmoved & _ & Hprinted);
    [reflexivity | reflexivity | reflexivity | lia |].
  split; [exact Hmoved | exact Hprinted].
Defined.


Lemma toBikramSambat_toGregorian_witness :
  newYearsIncreasing Sample.newYearMap = true
  /\ tabulated Sample.daysInMonthMap Sample.newYearMap 2075 = true
  /\ Sample.parse (pretty 2075 +:+ "-01-01")
     = ParseDate (Some (Int 2075)) (Some (Int 1)) (Some (Int 1))
  /\ isDayValid Sample.daysInMonthMap (Int 2075) (Int 3) (Int 32) = Ok true
  /\ (12 <= 12)%nat
  /\ exists g,
      toGregorian Sample.daysInMonthMap Sample.newYearMap Sample.now (date 2075 3 32)
      = Ok (Some g)
      /\ toBikramSambat Sample.daysInMonthMap Sample.newYearMap Sample.parse
                        Sample.parseAD 12 (AdDate (Some g))
         = Ok (date 2075 3 32).
Proof.
  split; [reflexivity|]. split; [reflexivity|]. split; [reflexivity|].
  split; [reflexivity|]. split; [lia|].
  apply (toBikramSambat_toGregorian Sample.daysInMonthMap Sample.newYearMap
           Sample.parse Sample.parseAD Sample.now 12 2075 3 32);
    [reflexivity | reflexivity | reflexivity | reflexivity | lia].
Defined.

Lemma toGregorian_toBikramSambat_witness :
  newYearsIncreasing Sample.newYearMap = true
  /\ tabulated Sample.daysInMonthMap Sample.newYearMap 2077 = true
  /\ Sample.parse (pretty 2077 +:+ "-01-01")
     = ParseDate (Some (Int 2077)) (Some (Int 1)) (Some (Int 1))
  /\ valid (mkGregorian 2021 2 28) = true
  /\ inNewYearInterval Sample.newYearMap (mkGregorian 2021 2 28) 2077 = true
  /\ (12 <= 12)%nat
  /\ exists b,
      toBikramSambat Sample.daysInMonthMap Sample.newYearMap Sample.parse
                     Sample.parseAD 12 (AdDate (Some (mkGregorian 2021 2 28)))
      = Ok b
      /\ toGregorian Sample.daysInMonthMap Sample.newYearMap Sample.now b
         = Ok (Some (mkGregorian 2021 2 28)).
Proof.
  split; [reflexivity|]. split; [reflexivity|]. split; [reflexivity|].
  split; [reflexivity|]. split; [reflexivity|]. split; [lia|].
  apply (toGregorian_toBikramSambat Sample.daysInMonthMap Sample.newYearMap
           Sample.parse Sample.parseAD Sample.now 12 (mkGregorian 2021 2 28) 2077);
    [reflexivity | reflexivity | reflexivity | reflexivity | reflexivity | lia].
Defined.

(** ** Further facts about the class *)

Section Arithmetic.

Context (daysInMonthMap : gmap Z (list Z)).
Context (newYearMap : gmap Z GregorianDate).
Context (parse : string -> parsed).
Context (now : GregorianDate).

Local Abbreviation date y m d := (mkBS (Some (Int y)) (Some (Int m)) (Some (Int d))).

(** *** Copies *)

(** X2: The constructor copies through the getters, which turn [undefined] into
    [NaN]: a copy of a set date is that date, but a copy of the unset date has
    three [NaN] fields.  The arithmetic is a no-op on the unset date and
    throws a [TypeError] on its copy. *)
Theorem copy_of_unset_is_not_unset depth n :
  (forall y m d,
      newBikramSambat parse (BsInstance (mkBS (Some y) (Some m) (Some d)))
      = mkBS (Some y) (Some m) (Some d))
  /\ newBikramSambat parse (BsInstance unset) = mkBS (Some NaN) (Some NaN) (Some NaN)
  /\ addMonths daysInMonthMap depth (Int n) unset = Ok unset
  /\ addDays daysInMonthMap depth (Int n) unset = Ok unset
  /\ addMonths daysInMonthMap (S depth) (Int n) (newBikramSambat parse (BsInstance unset))
     = Err TypeError
  /\ addDays daysInMonthMap (S depth) (Int n) (newBikramSambat parse (BsInstance unset))
     = Err TypeError.
Proof. repeat split. Qed.

(** *** Leaving the table and exhausting the stack *)

Lemma adjustYear_exhausts depth : forall r k b,
  Z.of_nat depth <= Z.abs ((r - 1) / 12) ->
  adjustYear daysInMonthMap depth (Int r) (Int k) b = Err RangeError.
Proof.
  induction depth as [|depth IH]; intros r k b Hdepth; [reflexivity|].
  destruct (Z_lt_le_dec 12 r) as [Hgt | Hle].
  - rewrite (adjustYear_above daysInMonthMap depth r k b Hgt).
    apply IH. Z.div_mod_to_equations. lia.
  - destruct (Z_le_gt_dec r 0) as [Hneg | Hpos].
    + rewrite (adjustYear_below daysInMonthMap depth r k b Hneg).
      apply IH. Z.div_mod_to_equations. lia.
    + exfalso. Z.div_mod_to_equations. lia.
Qed.

Lemma adjustYear_settled_no_RangeError t q b :
  1 <= t <= 12 ->
  adjustYear daysInMonthMap 1 (Int t) (Int q) b <> Err RangeError.
Proof.
  intros Ht. cbn [adjustYear]. unfold MONTHS_IN_A_YEAR. cbn [num_gt num_le].
  replace (12 <? t) with false by (symmetry; apply Z.ltb_ge; lia).
  replace (t <=? 0) with false by (symmetry; apply Z.leb_gt; lia).
  unfold getDaysInMonth.
  repeat match goal with
         | |- context [match ?x with _ => _ end] => destruct x; cbn
         end; discriminate.
Qed.

(** X3: [adjustYear] calls itself once for every year carried: [addMonths]
    exhausts a stack of [depth] frames exactly when it has at least [depth]
    years to carry. *)
Theorem addMonths_stack_depth depth y m d n :
  addMonths daysInMonthMap depth (Int n) (date y m d) = Err RangeError
  <-> Z.of_nat depth <= Z.abs ((m + n - 1) / 12).
Proof.
  unfold addMonths. cbn [month year num_add]. split.
  - intros Herr. destruct (Z_le_gt_dec (Z.of_nat depth) (Z.abs ((m + n - 1) / 12)))
      as [Hle | Hgt]; [exact Hle|].
    rewrite adjustYear_carries in Herr by lia.
    exfalso. revert Herr. apply adjustYear_settled_no_RangeError.
    Z.div_mod_to_equations. lia.
  - apply adjustYear_exhausts.
Qed.

(** X4: When the year arrived at has no entry in the table, [addMonths] throws
    the [TypeError] of reading a property of [undefined]. *)
Theorem addMonths_off_the_table depth y m d n :
  Z.abs ((m + n - 1) / 12) < Z.of_nat depth ->
  daysInMonthMap !! (y + (m + n - 1) / 12) = None ->
  addMonths daysInMonthMap depth (Int n) (date y m d) = Err TypeError.
Proof.
  intros Hdepth Hnone. unfold addMonths. cbn [month year num_add].
  rewrite adjustYear_carries by exact Hdepth. rewrite Z.add_0_l.
  assert (1 <= (m + n - 1) mod 12 + 1 <= 12) as Ht by (Z.div_mod_to_equations; lia).
  cbn [adjustYear]. unfold MONTHS_IN_A_YEAR. cbn [num_gt num_le].
  replace (12 <? (m + n - 1) mod 12 + 1) with false by (symmetry; apply Z.ltb_ge; lia).
  replace ((m + n - 1) mod 12 + 1 <=? 0) with false by (symmetry; apply Z.leb_gt; lia).
  unfold addYears, setMonth, setYear, getDaysInMonth.
  cbn [year month day monthsOf num_add num_sub]. rewrite Hnone. reflexivity.
Qed.

(** *** How [addMonths] composes and what it keeps *)

(** X5: [addMonths(n)] followed by [addMonths(-n)] restores the year and the
    month of a valid date; the day comes back as the smaller of the day and
    the length of the month visited in between. *)
Theorem addMonths_there_and_back depth y m d n months0 dim0 months1 dim1 :
  Z.abs ((m + n - 1) / 12) < Z.of_nat depth ->
  1 <= m <= 12 ->
  daysInMonthMap !! y = Some months0 ->
  months0 !! Z.to_nat (m - 1) = Some dim0 ->
  1 <= d <= dim0 ->
  daysInMonthMap !! (y + (m + n - 1) / 12) = Some months1 ->
  months1 !! Z.to_nat ((m + n - 1) mod 12) = Some dim1 ->
  1 <= dim1 ->
  (b <~ addMonths daysInMonthMap depth (Int n) (date y m d);;
   addMonths daysInMonthMap depth (Int (- n)) b)
  = Ok (date y m (Z.min d dim1)).
Proof.
  intros Hdepth Hm Hrow0 Hdim0 Hd Hrow1 Hdim1 Hpos1.
  set (q := (m + n - 1) / 12) in *. set (t := (m + n - 1) mod 12 + 1).
  assert (1 <= t <= 12 /\ t + 12 * q = m + n) as [Ht Htq]
      by (unfold t, q; Z.div_mod_to_equations; lia).
  assert (addMonths daysInMonthMap depth (Int n) (date y m d)
          = Ok (date (y + q) t (if dim1 <? d then dim1 else d))) as ->.
  { unfold addMonths. cbn [month year num_add].
    rewrite adjustYear_carries by exact Hdepth. rewrite Z.add_0_l.
    apply adjustYear_settles with (months := months1); try assumption.
    replace (Z.to_nat (t - 1)) with (Z.to_nat ((m + n - 1) mod 12)) by (unfold t; lia).
    exact Hdim1. }
  cbn [bind]. set (d1 := if dim1 <? d then dim1 else d).
  assert (d1 = Z.min d dim1) as Hd1.
  { unfold d1. destruct (dim1 <? d) eqn:E;
      [apply Z.ltb_lt in E | apply Z.ltb_ge in E]; lia. }
  assert ((t + - n - 1) / 12 = - q /\ (t + - n - 1) mod 12 + 1 = m) as [Hq' Ht']
      by (Z.div_mod_to_equations; lia).
  unfold addMonths. cbn [month year num_add].
  rewrite adjustYear_carries by (rewrite Hq'; lia). rewrite Z.add_0_l, Hq', Ht'.
  rewrite (adjustYear_settles daysInMonthMap (y + q) t d1 m (- q) months0 dim0);
    try assumption.
  - replace (y + q + - q) with y by lia.
    replace (dim0 <? d1) with false by (symmetry; apply Z.ltb_ge; lia).
    rewrite Hd1. reflexivity.
  - replace (y + q + - q) with y by lia. exact Hrow0.
  - lia.
Qed.

(** X6: Whenever [addMonths] arrives at a tabulated month, the date it leaves is
    valid, whether or not the day it found fitted the month it found it in. *)
Theorem addMonths_leaves_a_valid_date depth y m d n months dim :
  Z.abs ((m + n - 1) / 12) < Z.of_nat depth ->
  daysInMonthMap !! (y + (m + n - 1) / 12) = Some months ->
  months !! Z.to_nat ((m + n - 1) mod 12) = Some dim ->
  1 <= dim ->
  1 <= d ->
  exists b,
    addMonths daysInMonthMap depth (Int n) (date y m d) = Ok b
    /\ isDayValid daysInMonthMap (getYear b) (getMonth b) (getDay b) = Ok true.
Proof.
  intros Hdepth Hrow Hdim Hpos Hd.
  set (q := (m + n - 1) / 12) in *. set (t := (m + n - 1) mod 12 + 1).
  assert (1 <= t <= 12) as Ht by (unfold t; Z.div_mod_to_equations; lia).
  assert (months !! Z.to_nat (t - 1) = Some dim) as Hdim'.
  { replace (Z.to_nat (t - 1)) with (Z.to_nat ((m + n - 1) mod 12)) by (unfold t; lia).
    exact Hdim. }
  exists (date (y + q) t (if dim <? d then dim else d)). split.
  - unfold addMonths. cbn [month year num_add].
    rewrite adjustYear_carries by exact Hdepth. rewrite Z.add_0_l.
    apply adjustYear_settles with (months := months); assumption.
  - cbn [getYear getMonth getDay year month day default from_option id isDayValid].
    unfold daysInMonth. rewrite Hrow.
    replace ((1 <=? t) && (t <=? 12)) with true
      by (symmetry; apply andb_true_iff; split; apply Z.leb_le; lia).
    rewrite Hdim'. f_equal. apply andb_true_iff.
    destruct (dim <? d) eqn:E; [apply Z.ltb_lt in E | apply Z.ltb_ge in E];
      split; apply Z.leb_le; lia.
Qed.

(** *** Leap years *)

Lemma foldl_add_sumZ l : forall acc, foldl (fun a days => a + days) acc l = acc + sumZ l.
Proof.
  induction l as [|x l IH]; intros acc; unfold sumZ in *; cbn; [lia|].
  rewrite IH. lia.
Qed.

(** X7: [isLeapYear] is [false] on a date without a year and throws a [TypeError]
    when the year has no entry; on a tabulated year it tells whether the next
    New Year is 366 days after this one. *)
Theorem isLeapYear_counts_the_days y mv dv :
  isLeapYear daysInMonthMap (mkBS None mv dv) = Ok false
  /\ (daysInMonthMap !! y = None ->
      isLeapYear daysInMonthMap (mkBS (Some (Int y)) mv dv) = Err TypeError)
  /\ (forall ny ny',
      tabulated daysInMonthMap newYearMap y = true ->
      newYearMap !! y = Some ny ->
      newYearMap !! (y + 1) = Some ny' ->
      isLeapYear daysInMonthMap (mkBS (Some (Int y)) mv dv)
      = Ok (dayNumber ny' - dayNumber ny =? 366)).
Proof.
  split; [reflexivity|]. split.
  - intros Hnone. unfold isLeapYear. cbn [year monthsOf]. rewrite Hnone. reflexivity.
  - intros ny ny' Htab Hny Hny'.
    destruct (tabulated_spec _ _ _ Htab)
      as (months & ny0 & ny0' & Hrow & Hny0 & Hny0' & _ & _ & _ & _ & Hspan).
    rewrite Hny in Hny0. injection Hny0 as <-.
    rewrite Hny' in Hny0'. injection Hny0' as <-.
    unfold isLeapYear. cbn [year monthsOf]. rewrite Hrow.
    rewrite foldl_add_sumZ. unfold DAYS_IN_A_LEAP_YEAR.
    do 2 f_equal. lia.
Qed.

(** *** The neighbouring months, where the code is right *)

(** X8: [getPreviousMonth] gives the descriptor of the month before, cyclically,
    for every month of [1..12]; [getNextMonth] gives the descriptor of the
    month after for every month but 11; both give [null] when the month is
    [undefined], [0] or [NaN]. *)
Theorem neighbouring_months yv dv m :
  (1 <= m <= 12 ->
   exists desc, NepaliMonthsData !! Z.to_nat ((m + 10) mod 12) = Some desc
                /\ getPreviousMonth (mkBS yv (Some (Int m)) dv) = MonthOf desc)
  /\ (1 <= m <= 12 -> m <> 11 ->
      exists desc, NepaliMonthsData !! Z.to_nat (m mod 12) = Some desc
                   /\ getNextMonth (mkBS yv (Some (Int m)) dv) = MonthOf desc)
  /\ (forall mv, truthy mv = false ->
      getPreviousMonth (mkBS yv mv dv) = MonthNull
      /\ getNextMonth (mkBS yv mv dv) = MonthNull).
Proof.
  split; [|split].
  - intros Hm.
    assert (m = 1 \/ m = 2 \/ m = 3 \/ m = 4 \/ m = 5 \/ m = 6 \/ m = 7
            \/ m = 8 \/ m = 9 \/ m = 10 \/ m = 11 \/ m = 12) as H by lia.
    repeat (destruct H as [H | H]); subst m; eexists; (split; reflexivity).
  - intros Hm Hne.
    assert (m = 1 \/ m = 2 \/ m = 3 \/ m = 4 \/ m = 5 \/ m = 6 \/ m = 7
            \/ m = 8 \/ m = 9 \/ m = 10 \/ m = 12) as H by lia.
    repeat (destruct H as [H | H]); subst m; eexists; (split; reflexivity).
  - intros mv H. unfold getPreviousMonth, getNextMonth. cbn [month].
    rewrite H. split; reflexivity.
Qed.

(** *** The day of the week *)

(** X9: [getDayOfWeek] guards on the year and the month only.  Without one of
    them it is [NaN]; with both but no day, [toGregorian] falls back to the
    system date and the weekday returned is today's. *)
Theorem getDayOfWeek_without_day yv mv dv :
  getDayOfWeek daysInMonthMap newYearMap now (mkBS None mv dv) = Ok NaN
  /\ getDayOfWeek daysInMonthMap newYearMap now (mkBS yv None dv) = Ok NaN
  /\ (forall y m,
      truthy dv = false ->
      getDayOfWeek daysInMonthMap newYearMap now (mkBS (Some y) (Some m) dv)
      = Ok (Int (dayNumber now mod 7))).
Proof.
  split; [reflexivity|]. split; [destruct yv; reflexivity|].
  intros y m H. unfold getDayOfWeek. cbn [year month].
  unfold toGregorian. cbn [year month day].
  rewrite (truthyInt_truthy dv H).
  destruct (truthyInt (Some y)); destruct (truthyInt (Some m)); reflexivity.
Qed.

End Arithmetic.

(** ** Adding days forward, across years *)

Section Forward.

Context (daysInMonthMap : gmap Z (list Z)).
Context (newYearMap : gmap Z GregorianDate).
Context (now : GregorianDate).

Local Abbreviation date y m d := (mkBS (Some (Int y)) (Some (Int m)) (Some (Int d))).

Lemma tabulatedFrom_spec y K :
  tabulatedFrom daysInMonthMap newYearMap y K = true <->
  forall k, (k <= K)%nat -> tabulated daysInMonthMap newYearMap (y + Z.of_nat k) = true.
Proof.
  unfold tabulatedFrom. rewrite forallb_forall. split.
  - intros H k Hk. apply H. apply in_seq. lia.
  - intros H k Hk. apply in_seq in Hk. apply H. lia.
Qed.

Lemma tabulatedFrom_head y K :
  tabulatedFrom daysInMonthMap newYearMap y K = true ->
  tabulated daysInMonthMap newYearMap y = true.
Proof.
  intros H. rewrite tabulatedFrom_spec in H.
  specialize (H 0%nat ltac:(lia)). rewrite Z.add_0_r in H. exact H.
Qed.

Lemma tabulatedFrom_tail y K :
  tabulatedFrom daysInMonthMap newYearMap y (S K) = true ->
  tabulatedFrom daysInMonthMap newYearMap (y + 1) K = true.
Proof.
  rewrite !tabulatedFrom_spec. intros H k Hk.
  specialize (H (S k) ltac:(lia)).
  replace (y + 1 + Z.of_nat k) with (y + Z.of_nat (S k)) by lia. exact H.
Qed.

(** From Chaitra into Baisakh of the next year. *)
Lemma addMonths_into_next_year depth y months' n dv :
  daysInMonthMap !! (y + 1) = Some months' ->
  months' !! 0%nat = Some n ->
  exists dv',
    addMonths daysInMonthMap (S (S depth)) (Int 1)
              (mkBS (Some (Int y)) (Some (Int (Z.of_nat 12))) dv)
    = Ok (mkBS (Some (Int (y + 1))) (Some (Int (Z.of_nat 1))) dv').
Proof.
  intros Hrow Hn. unfold addMonths. cbn [month year num_add].
  rewrite (adjustYear_above daysInMonthMap (S depth) (Z.of_nat 12 + 1) 0) by lia.
  rewrite (adjustYear_within daysInMonthMap depth (Z.of_nat 12 + 1 - 12) (0 + 1)) by lia.
  destruct (adjustYear_settled_fields daysInMonthMap y (Some (Int (Z.of_nat 12))) dv
              (Z.of_nat 12 + 1 - 12) (0 + 1) months' n) as [dv' Hdv'];
    [lia | exact Hrow | exact Hn |].
  exists dv'. rewrite Hdv'. reflexivity.
Qed.

(** The walk of [adjustMonth] through months and years keeps the day number
    of the date it is heading for: from the month at index [i] of year [y]
    with [r] days to place, it ends on a valid day of a tabulated month that
    lies as many days after the New Year of [y] as [r] asked for. *)
Lemma adjustMonth_walks_forward N : forall K i y r dv depth months ny nyE,
  N = (12 * S K - i)%nat ->
  (i < 12)%nat ->
  tabulatedFrom daysInMonthMap newYearMap y K = true ->
  daysInMonthMap !! y = Some months ->
  newYearMap !! y = Some ny ->
  newYearMap !! (y + Z.of_nat K + 1) = Some nyE ->
  1 <= r ->
  dayNumber ny + sumZ (take i months) + r <= dayNumber nyE ->
  (N < depth)%nat ->
  exists y2 months2 ny2 i2 n2 d2,
    adjustMonth daysInMonthMap depth (Int r)
                (mkBS (Some (Int y)) (Some (Int (Z.of_nat (S i)))) dv)
    = Ok (date y2 (Z.of_nat (S i2)) d2)
    /\ tabulated daysInMonthMap newYearMap y2 = true
    /\ daysInMonthMap !! y2 = Some months2
    /\ newYearMap !! y2 = Some ny2
    /\ months2 !! i2 = Some n2
    /\ 1 <= d2 <= n2
    /\ dayNumber ny2 + sumZ (take i2 months2) + d2
       = dayNumber ny + sumZ (take i months) + r.
Proof.
  induction N as [|N IH];
    intros K i y r dv depth months ny nyE HN Hi Htab Hrow Hny HnyE Hr Hbound Hdepth;
    [lia|].
  pose proof (tabulatedFrom_head _ _ Htab) as Hy.
  destruct (tabulated_spec _ _ _ Hy)
    as (months0 & ny0 & ny0' & Hrow0 & Hny0 & Hny0' & Hy0 & Hlen & Hpos & Hvny & Hspan).
  rewrite Hrow in Hrow0. injection Hrow0 as <-.
  rewrite Hny in Hny0. injection Hny0 as <-.
  destruct (lookup_lt_is_Some_2 months i ltac:(lia)) as [ni Hni].
  destruct depth as [|depth]; [lia|].
  rewrite (adjustMonth_step daysInMonthMap depth r _ ni
             (getDaysInMonth_at daysInMonthMap y months Hrow Hlen i ni dv Hni)).
  destruct (Z_le_gt_dec r ni) as [Hfits | Hmore].
  - replace (ni <? r) with false by (symmetry; apply Z.ltb_ge; lia).
    replace (r <=? 0) with false by (symmetry; apply Z.leb_gt; lia).
    exists y, months, ny, i, ni, r. repeat split; try assumption; lia.
  - replace (ni <? r) with true by (symmetry; apply Z.ltb_lt; lia).
    pose proof (sumZ_take_S _ _ _ Hni) as Hsum.
    destruct (Nat.eq_dec i 11) as [-> | Hlast].
    + (* Chaitra: on to the next year *)
      assert (sumZ (take (S 11) months) = sumZ months) as Hall
          by (rewrite take_ge by lia; reflexivity).
      destruct K as [|K].
      { exfalso. rewrite Z.add_0_r in HnyE. rewrite HnyE in Hny0'.
        injection Hny0' as <-. lia. }
      pose proof (tabulatedFrom_tail _ _ Htab) as Htab'.
      pose proof (tabulatedFrom_head _ _ Htab') as Hy'.
      destruct (tabulated_spec _ _ _ Hy')
        as (months' & ny' & ny'' & Hrow' & Hny' & _ & _ & Hlen' & _ & _ & _).
      rewrite Hny0' in Hny'. injection Hny' as <-.
      destruct (lookup_lt_is_Some_2 months' 0%nat ltac:(lia)) as [n0 Hn0].
      destruct depth as [|[|depth]]; try lia.
      destruct (addMonths_into_next_year depth y months' n0 dv Hrow' Hn0) as [dv' ->].
      cbn [bind].
      destruct (IH K 0%nat (y + 1) (r - ni) dv' (S (S depth)) months' ny0' nyE)
        as (y2 & months2 & ny2 & i2 & n2 & d2 & Hres & Hy2 & Hrow2 & Hny2 & Hn2 & Hd2 & Heq);
        try assumption; try lia.
      * replace (y + 1 + Z.of_nat K + 1) with (y + Z.of_nat (S K) + 1) by lia. exact HnyE.
      * rewrite take_0. change (sumZ []) with 0. lia.
      * exists y2, months2, ny2, i2, n2, d2. repeat split; try assumption; try lia.
        rewrite take_0 in Heq. change (sumZ []) with 0 in Heq. lia.
    + (* inside the year *)
      destruct (lookup_lt_is_Some_2 months (S i) ltac:(lia)) as [ni' Hni'].
      destruct depth as [|depth]; [lia|].
      destruct (addMonths_next_month daysInMonthMap y months Hrow Hlen depth i ni' dv Hni')
        as [dv' ->].
      cbn [bind].
      destruct (IH K (S i) y (r - ni) dv' (S depth) months ny nyE)
        as (y2 & months2 & ny2 & i2 & n2 & d2 & Hres & Hy2 & Hrow2 & Hny2 & Hn2 & Hd2 & Heq);
        try assumption; try lia.
      exists y2, months2, ny2, i2, n2, d2. repeat split; try assumption; lia.
Qed.

(** Where [addDays(n)] lands for [n >= 0], and what [toGregorian] makes of
    it. *)
Lemma addDays_forward_lands depth y m d n K g0 nyE :
  tabulatedFrom daysInMonthMap newYearMap y K = true ->
  isDayValid daysInMonthMap (Int y) (Int m) (Int d) = Ok true ->
  0 <= n ->
  toGregorian daysInMonthMap newYearMap now (date y m d) = Ok (Some g0) ->
  newYearMap !! (y + Z.of_nat K + 1) = Some nyE ->
  dayNumber g0 + n < dayNumber nyE ->
  (12 * S K < depth)%nat ->
  exists y2 m2 d2 n2,
    addDays daysInMonthMap depth (Int n) (date y m d) = Ok (date y2 m2 d2)
    /\ daysInMonth daysInMonthMap y2 m2 = Ok n2
    /\ 1 <= d2 <= n2
    /\ toGregorian daysInMonthMap newYearMap now (date y2 m2 d2)
       = Ok (Some (shift g0 n))
    /\ valid g0 = true.
Proof.
  intros Htab Hvalid Hn Hg0 HnyE Hbound Hdepth.
  pose proof (tabulatedFrom_head _ _ Htab) as Hy.
  destruct (tabulated_spec _ _ _ Hy)
    as (months & ny & ny' & Hrow & Hny & Hny' & Hy0 & Hlen & Hpos & Hvny & Hspan).
  destruct (isDayValid_true _ _ _ _ Hvalid)
    as (y0 & m0 & d0 & nm & Ey & Em & Ed & Hnm & Hd).
  injection Ey as <-. injection Em as <-. injection Ed as <-.
  destruct (daysInMonth_Ok _ _ _ _ Hnm) as (months' & Hrow' & Hm & Hlook).
  rewrite Hrow in Hrow'. injection Hrow' as <-.
  set (i := Z.to_nat (m - 1)) in *.
  assert (m = Z.of_nat (S i)) as Em by lia. assert (i < 12)%nat as Hi by lia.
  rewrite Em in *.
  rewrite (toGregorian_of_date daysInMonthMap newYearMap now y months ny i d)
    in Hg0 by (try assumption; lia).
  injection Hg0 as <-.
  destruct (shift_spec ny (sumZ (take i months) + d - 1) Hvny) as [Hdn0 Hv0].
  destruct (adjustMonth_walks_forward (12 * S K - i) K i y (d + n) (Some (Int d))
              depth months ny nyE)
    as (y2 & months2 & ny2 & i2 & n2 & d2 & Hres & Hy2 & Hrow2 & Hny2 & Hn2 & Hd2 & Heq);
    try assumption; try reflexivity; try lia.
  destruct (tabulated_spec _ _ _ Hy2)
    as (months2' & ny2' & _ & Hrow2' & Hny2' & _ & Hy20 & Hlen2 & _ & Hvny2 & _).
  rewrite Hrow2 in Hrow2'. injection Hrow2' as <-.
  rewrite Hny2 in Hny2'. injection Hny2' as <-.
  assert (i2 < 12)%nat as Hi2 by (apply lookup_lt_Some in Hn2; lia).
  exists y2, (Z.of_nat (S i2)), d2, n2. split; [|split; [|split; [|split]]].
  - unfold addDays. cbn [day month num_add]. exact Hres.
  - unfold daysInMonth. rewrite Hrow2.
    replace ((1 <=? Z.of_nat (S i2)) && (Z.of_nat (S i2) <=? 12)) with true
      by (symmetry; apply andb_true_iff; split; apply Z.leb_le; lia).
    replace (Z.to_nat (Z.of_nat (S i2) - 1)) with i2 by lia.
    rewrite Hn2. reflexivity.
  - exact Hd2.
  - rewrite (toGregorian_of_date daysInMonthMap newYearMap now y2 months2 ny2 i2 d2)
      by (try assumption; lia).
    do 2 f_equal.
    destruct (shift_spec ny2 (sumZ (take i2 months2) + d2 - 1) Hvny2) as [Hdn2 Hv2].
    destruct (shift_spec _ n Hv0) as [Hdn1 Hv1].
    apply dayNumber_inj; [exact Hv2 | exact Hv1 | lia].
  - exact Hv0.
Qed.

(** X10: For [n >= 0] and as long as the table reaches, [addDays(n)] is calendar
    addition: it leaves a valid date, and the Gregorian date of the result is
    the Gregorian date of the start, [n] days on. *)
Theorem addDays_forward_is_calendar_addition depth y m d n K g0 nyE :
  tabulatedFrom daysInMonthMap newYearMap y K = true ->
  isDayValid daysInMonthMap (Int y) (Int m) (Int d) = Ok true ->
  0 <= n ->
  toGregorian daysInMonthMap newYearMap now (date y m d) = Ok (Some g0) ->
  newYearMap !! (y + Z.of_nat K + 1) = Some nyE ->
  dayNumber g0 + n < dayNumber nyE ->
  (12 * S K < depth)%nat ->
  exists b,
    addDays daysInMonthMap depth (Int n) (date y m d) = Ok b
    /\ isDayValid daysInMonthMap (getYear b) (getMonth b) (getDay b) = Ok true
    /\ toGregorian daysInMonthMap newYearMap now b = Ok (Some (shift g0 n)).
Proof.
  intros Htab Hvalid Hn Hg0 HnyE Hbound Hdepth.
  destruct (addDays_forward_lands depth y m d n K g0 nyE)
    as (y2 & m2 & d2 & n2 & Hres & Hn2 & Hd2 & Hg & _); try assumption.
  exists (date y2 m2 d2). split; [exact Hres|]. split; [|exact Hg].
  cbn [getYear getMonth getDay year month day default from_option id isDayValid].
  rewrite Hn2. f_equal. apply andb_true_iff. split; apply Z.leb_le; lia.
Qed.

(** X11: The day of the week follows: on a valid date it is a number of [0..6],
    and [n >= 0] days on it is that number plus [n], modulo 7. *)
Theorem getDayOfWeek_after_addDays depth y m d n K g0 nyE :
  tabulatedFrom daysInMonthMap newYearMap y K = true ->
  isDayValid daysInMonthMap (Int y) (Int m) (Int d) = Ok true ->
  0 <= n ->
  toGregorian daysInMonthMap newYearMap now (date y m d) = Ok (Some g0) ->
  newYearMap !! (y + Z.of_nat K + 1) = Some nyE ->
  dayNumber g0 + n < dayNumber nyE ->
  (12 * S K < depth)%nat ->
  exists b w,
    addDays daysInMonthMap depth (Int n) (date y m d) = Ok b
    /\ getDayOfWeek daysInMonthMap newYearMap now (date y m d) = Ok (Int w)
    /\ 0 <= w <= 6
    /\ getDayOfWeek daysInMonthMap newYearMap now b = Ok (Int ((w + n) mod 7)).
Proof.
  intros Htab Hvalid Hn Hg0 HnyE Hbound Hdepth.
  destruct (addDays_forward_lands depth y m d n K g0 nyE)
    as (y2 & m2 & d2 & n2 & Hres & Hn2 & Hd2 & Hg & Hv0); try assumption.
  exists (date y2 m2 d2), (dayNumber g0 mod 7).
  split; [exact Hres|]. split; [|split].
  - unfold getDayOfWeek. cbn [year month]. rewrite Hg0. reflexivity.
  - pose proof (Z.mod_pos_bound (dayNumber g0) 7 ltac:(lia)). lia.
  - unfold getDayOfWeek. cbn [year month]. rewrite Hg. cbn [bind Date_getDay].
    destruct (shift_spec g0 n Hv0) as [-> _].
    rewrite Zplus_mod_idemp_l. reflexivity.
Qed.

End Forward.

(** ** The Gregorian date of a valid date *)

Lemma sumZ_take_mono l a b :
  Forall (fun n => 1 <= n) l -> (a <= b)%nat -> sumZ (take a l) <= sumZ (take b l).
Proof.
  intros Hl Hab.
  replace (take a l) with (take a (take b l))
    by (rewrite take_take; f_equal; lia).
  apply sumZ_take_le, Forall_take, Hl.
Qed.

Section Anchors.

Context (daysInMonthMap : gmap Z (list Z)).
Context (newYearMap : gmap Z GregorianDate).
Context (parse : string -> parsed).
Context (parseAD : string -> JSDate).
Context (now : GregorianDate).

Local Abbreviation date y m d := (mkBS (Some (Int y)) (Some (Int m)) (Some (Int d))).

(** The Gregorian date of a valid date of a tabulated year, by day numbers. *)
Lemma toGregorian_dayNumber y m d :
  tabulated daysInMonthMap newYearMap y = true ->
  isDayValid daysInMonthMap (Int y) (Int m) (Int d) = Ok true ->
  exists g ny ny' months i n,
    toGregorian daysInMonthMap newYearMap now (date y m d) = Ok (Some g)
    /\ valid g = true
    /\ newYearMap !! y = Some ny /\ newYearMap !! (y + 1) = Some ny'
    /\ daysInMonthMap !! y = Some months /\ Forall (fun n => 1 <= n) months
    /\ m = Z.of_nat (S i) /\ months !! i = Some n /\ 1 <= d <= n
    /\ dayNumber g = dayNumber ny + sumZ (take i months) + d - 1
    /\ dayNumber ny <= dayNumber g < dayNumber ny'.
Proof.
  intros Htab Hvalid.
  destruct (tabulated_spec _ _ _ Htab)
    as (months & ny & ny' & Hrow & Hny & Hny' & Hy0 & Hlen & Hpos & Hvny & Hspan).
  destruct (isDayValid_true _ _ _ _ Hvalid)
    as (y0 & m0 & d0 & n & Ey & Em & Ed & Hn & Hd).
  injection Ey as <-. injection Em as <-. injection Ed as <-.
  destruct (daysInMonth_Ok _ _ _ _ Hn) as (months' & Hrow' & Hm & Hlook).
  rewrite Hrow in Hrow'. injection Hrow' as <-.
  set (i := Z.to_nat (m - 1)) in *.
  assert (m = Z.of_nat (S i)) as Em by lia. assert (i < 12)%nat as Hi by lia.
  destruct (shift_spec ny (sumZ (take i months) + d - 1) Hvny) as [Hdn Hv].
  assert (0 <= sumZ (take i months)) as Hbefore
      by (apply sumZ_nonneg, Forall_take, Hpos).
  assert (sumZ (take i months) + n <= sumZ months) as Hwithin.
  { rewrite <- (sumZ_take_S _ _ _ Hlook). apply sumZ_take_le, Hpos. }
  exists (shift ny (sumZ (take i months) + d - 1)), ny, ny', months, i, n.
  split.
  { rewrite Em. apply toGregorian_of_date; try assumption. lia. }
  repeat split; try assumption; lia.
Qed.

(** X12: The dates of a tabulated year fill the days from its New Year up to the
    day before the next one: the first of Baisakh is the New Year itself, and
    every valid date of the year falls in that span. *)
Theorem toGregorian_within_the_year y m d ny ny' :
  tabulated daysInMonthMap newYearMap y = true ->
  newYearMap !! y = Some ny ->
  newYearMap !! (y + 1) = Some ny' ->
  isDayValid daysInMonthMap (Int y) (Int m) (Int d) = Ok true ->
  toGregorian daysInMonthMap newYearMap now (date y 1 1) = Ok (Some ny)
  /\ exists g,
      toGregorian daysInMonthMap newYearMap now (date y m d) = Ok (Some g)
      /\ valid g = true
      /\ dayNumber ny <= dayNumber g < dayNumber ny'.
Proof.
  intros Htab Hny Hny' Hvalid. split.
  - destruct (tabulated_spec _ _ _ Htab)
      as (months & ny0 & _ & Hrow & Hny0 & _ & Hy0 & Hlen & _ & Hvny & _).
    rewrite Hny in Hny0. injection Hny0 as <-.
    change 1 with (Z.of_nat 1) at 1.
    rewrite (toGregorian_of_date daysInMonthMap newYearMap now y months ny 0%nat 1)
      by (try assumption; lia).
    rewrite take_0. reflexivity.
  - destruct (toGregorian_dayNumber y m d Htab Hvalid)
      as (g & ny0 & ny0' & months & i & n & Hg & Hv & Hny0 & Hny0' & _ & _ & _ & _ & _
          & _ & Hspan).
    rewrite Hny in Hny0. injection Hny0 as <-.
    rewrite Hny' in Hny0'. injection Hny0' as <-.
    exists g. repeat split; try assumption; lia.
Qed.

(** X13: [toGregorian] keeps the order of dates: of two valid dates of tabulated
    years, the one with the earlier year, or month, or day has the earlier
    Gregorian date.  In particular no two dates share a Gregorian date. *)
Theorem toGregorian_keeps_the_order y1 m1 d1 y2 m2 d2 g1 g2 :
  newYearsIncreasing newYearMap = true ->
  tabulated daysInMonthMap newYearMap y1 = true ->
  tabulated daysInMonthMap newYearMap y2 = true ->
  isDayValid daysInMonthMap (Int y1) (Int m1) (Int d1) = Ok true ->
  isDayValid daysInMonthMap (Int y2) (Int m2) (Int d2) = Ok true ->
  toGregorian daysInMonthMap newYearMap now (date y1 m1 d1) = Ok (Some g1) ->
  toGregorian daysInMonthMap newYearMap now (date y2 m2 d2) = Ok (Some g2) ->
  y1 < y2 \/ (y1 = y2 /\ (m1 < m2 \/ (m1 = m2 /\ d1 < d2))) ->
  dayNumber g1 < dayNumber g2.
Proof.
  intros Hinc Htab1 Htab2 Hv1 Hv2 Hg1 Hg2 Hlt.
  destruct (toGregorian_dayNumber y1 m1 d1 Htab1 Hv1)
    as (g1' & ny1 & ny1' & months1 & i1 & n1 & Hg1' & _ & Hny1 & Hny1' & Hrow1 & Hpos1
        & Hm1 & Hn1 & Hd1 & Hdn1 & Hspan1).
  destruct (toGregorian_dayNumber y2 m2 d2 Htab2 Hv2)
    as (g2' & ny2 & ny2' & months2 & i2 & n2 & Hg2' & _ & Hny2 & Hny2' & Hrow2 & Hpos2
        & Hm2 & Hn2 & Hd2 & Hdn2 & Hspan2).
  rewrite Hg1 in Hg1'. injection Hg1' as <-.
  rewrite Hg2 in Hg2'. injection Hg2' as <-.
  destruct Hlt as [Hy | [-> Hmd]].
  - pose proof (newYearsIncreasing_spec newYearMap (y1 + 1) y2 ny1' ny2 Hinc Hny1' Hny2
                  ltac:(lia)).
    lia.
  - rewrite Hny1 in Hny2. injection Hny2 as <-.
    rewrite Hrow1 in Hrow2. injection Hrow2 as <-.
    destruct Hmd as [Hm | [Hm Hd]].
    + assert (S i1 <= i2)%nat as Hi by lia.
      pose proof (sumZ_take_mono months1 (S i1) i2 Hpos1 Hi) as Hmono.
      rewrite (sumZ_take_S _ _ _ Hn1) in Hmono. lia.
    + assert (i1 = i2) as -> by lia. lia.
Qed.

(** X14: [toBikramSambat] of a date that falls in a tabulated year is a valid date
    of that year. *)
Theorem toBikramSambat_gives_a_valid_date depth g y :
  newYearsIncreasing newYearMap = true ->
  tabulated daysInMonthMap newYearMap y = true ->
  parse (pretty y +:+ "-01-01") = ParseDate (Some (Int y)) (Some (Int 1)) (Some (Int 1)) ->
  inNewYearInterval newYearMap g y = true ->
  (12 <= depth)%nat ->
  exists b,
    toBikramSambat daysInMonthMap newYearMap parse parseAD depth (AdDate (Some g)) = Ok b
    /\ getYear b = Int y
    /\ isDayValid daysInMonthMap (getYear b) (getMonth b) (getDay b) = Ok true.
Proof.
  intros Hinc Htab Hparse Hin Hdepth.
  destruct (tabulated_spec _ _ _ Htab)
    as (months & ny & ny' & Hrow & Hny & Hny' & Hy & Hlen & Hpos & Hvny & Hspan).
  pose proof Hin as Hint.
  apply inNewYearInterval_spec in Hint as (ny0 & ny0' & Hny0 & Hny0' & Hlo & Hhi).
  rewrite Hny in Hny0. injection Hny0 as <-.
  rewrite Hny' in Hny0'. injection Hny0' as <-.
  destruct (month_of_offset months (1 + (dayNumber g - dayNumber ny)) Hpos ltac:(lia))
    as (i & n & d & Hlook & Hd & Hsum).
  assert (i < 12)%nat as Hi by (apply lookup_lt_Some in Hlook; lia).
  exists (date y (Z.of_nat (S i)) d). split; [|split; [reflexivity|]].
  - rewrite (toBikramSambat_of_date daysInMonthMap newYearMap parse parseAD depth g y ny);
      try assumption.
    rewrite Hsum. change 1 with (Z.of_nat 1) at 1.
    replace (take i months) with (take i (drop 0 months)) by reflexivity.
    rewrite (adjustMonth_forward daysInMonthMap y months Hrow Hlen Hpos i 0%nat
               (Some (Int 1)) depth n d); [reflexivity | exact Hlook | exact Hd | lia].
  - cbn [getYear getMonth getDay year month day default from_option id isDayValid].
    unfold daysInMonth. rewrite Hrow.
    replace ((1 <=? Z.of_nat (S i)) && (Z.of_nat (S i) <=? 12)) with true
      by (symmetry; apply andb_true_iff; split; apply Z.leb_le; lia).
    replace (Z.to_nat (Z.of_nat (S i) - 1)) with i by lia.
    rewrite Hlook. f_equal. apply andb_true_iff. split; apply Z.leb_le; lia.
Qed.

End Anchors.

(** ** Going back one month *)

Section Backward.

Context (daysInMonthMap : gmap Z (list Z)).

Local Abbreviation date y m d := (mkBS (Some (Int y)) (Some (Int m)) (Some (Int d))).

(** The length of a month is read from the row of its year. *)
Lemma getDaysInMonth_of y m dv months n :
  daysInMonthMap !! y = Some months ->
  1 <= m ->
  months !! Z.to_nat (m - 1) = Some n ->
  getDaysInMonth daysInMonthMap (mkBS (Some (Int y)) (Some (Int m)) dv)
  = Ok (Some (Int n)).
Proof.
  intros Hrow Hm Hn. unfold getDaysInMonth. cbn [month year monthsOf num_sub].
  rewrite Hrow. cbn [index].
  replace (0 <=? m - 1) with true by (symmetry; apply Z.leb_le; lia).
  rewrite Hn. reflexivity.
Qed.

(** One month back and one month forward, within a year or across the
    New Year: the day is kept or clamped. *)
Lemma addMonths_one_back depth y m dv py pm pmonths before :
  1 <= m <= 12 ->
  (py, pm) = (if m =? 1 then (y - 1, 12) else (y, m - 1)) ->
  daysInMonthMap !! py = Some pmonths ->
  pmonths !! Z.to_nat (pm - 1) = Some before ->
  exists dv',
    addMonths daysInMonthMap (S (S depth)) (Int (-1)) (mkBS (Some (Int y)) (Some (Int m)) dv)
    = Ok (mkBS (Some (Int py)) (Some (Int pm)) dv').
Proof.
  intros Hm Hprev Hrow Hn. unfold addMonths. cbn [month year num_add].
  destruct (m =? 1) eqn:E; injection Hprev as -> ->.
  - apply Z.eqb_eq in E. subst m.
    rewrite (adjustYear_below daysInMonthMap (S depth) (1 + -1) 0) by lia.
    rewrite (adjustYear_within daysInMonthMap depth (1 + -1 + 12) (0 - 1)) by lia.
    destruct (adjustYear_settled_fields daysInMonthMap y (Some (Int 1)) dv
                (1 + -1 + 12) (0 - 1) pmonths before) as [dv' Hdv'];
      [lia | exact Hrow | exact Hn |].
    exists dv'. rewrite Hdv'. reflexivity.
  - apply Z.eqb_neq in E.
    rewrite (adjustYear_within daysInMonthMap (S depth) (m + -1) 0) by lia.
    destruct (adjustYear_settled_fields daysInMonthMap y (Some (Int m)) dv
                (m + -1) 0 pmonths before) as [dv' Hdv'];
      [lia | rewrite Z.add_0_r; exact Hrow | exact Hn |].
    exists dv'. rewrite Hdv'. rewrite Z.add_0_r. reflexivity.
Qed.

Lemma addMonths_one_forward depth y m dv py pm months here :
  1 <= m <= 12 ->
  (py, pm) = (if m =? 1 then (y - 1, 12) else (y, m - 1)) ->
  daysInMonthMap !! y = Some months ->
  months !! Z.to_nat (m - 1) = Some here ->
  exists dv',
    addMonths daysInMonthMap (S (S depth)) (Int 1) (mkBS (Some (Int py)) (Some (Int pm)) dv)
    = Ok (mkBS (Some (Int y)) (Some (Int m)) dv').
Proof.
  intros Hm Hprev Hrow Hn. unfold addMonths. cbn [month year num_add].
  destruct (m =? 1) eqn:E; injection Hprev as -> ->.
  - apply Z.eqb_eq in E. subst m.
    rewrite (adjustYear_above daysInMonthMap (S depth) (12 + 1) 0) by lia.
    rewrite (adjustYear_within daysInMonthMap depth (12 + 1 - 12) (0 + 1)) by lia.
    destruct (adjustYear_settled_fields daysInMonthMap (y - 1) (Some (Int 12)) dv
                (12 + 1 - 12) (0 + 1) months here) as [dv' Hdv'];
      [lia | replace (y - 1 + (0 + 1)) with y by lia; exact Hrow | exact Hn |].
    exists dv'. rewrite Hdv'. replace (y - 1 + (0 + 1)) with y by lia. reflexivity.
  - apply Z.eqb_neq in E.
    rewrite (adjustYear_within daysInMonthMap (S depth) (m - 1 + 1) 0) by lia.
    destruct (adjustYear_settled_fields daysInMonthMap y (Some (Int (m - 1))) dv
                (m - 1 + 1) 0 months here) as [dv' Hdv'];
      [lia | rewrite Z.add_0_r; exact Hrow
       | replace (m - 1 + 1 - 1) with (m - 1) by lia; exact Hn |].
    exists dv'. rewrite Hdv'. rewrite Z.add_0_r.
    replace (m - 1 + 1) with m by lia. reflexivity.
Qed.

(** X16: [addDays] with a count that reaches back before the first of the month,
    by less than the length [here] of the month it starts in.  The month
    entered, [(py, pm)], is the one before in the same year, or Chaitra of
    the year before when the walk starts in Baisakh.  The code adds [here]
    to the remainder, where the length [before] of the month entered
    belongs.  When the sum fits the month entered, the day stored is
    [here + day + n]; when it does not, the walk turns forward again and ends
    in the month it started from, on day [here + day + n - before]. *)
Theorem addDays_back_into_the_previous_month depth y m d n months here py pm pmonths before :
  1 <= m <= 12 ->
  (py, pm) = (if m =? 1 then (y - 1, 12) else (y, m - 1)) ->
  daysInMonthMap !! y = Some months ->
  months !! Z.to_nat (m - 1) = Some here ->
  daysInMonthMap !! py = Some pmonths ->
  pmonths !! Z.to_nat (pm - 1) = Some before ->
  1 <= before ->
  d + n <= 0 ->
  0 < here + (d + n) ->
  (4 <= depth)%nat ->
  addDays daysInMonthMap depth (Int n) (date y m d)
  = if here + (d + n) <=? before
    then Ok (date py pm (here + (d + n)))
    else Ok (date y m (here + (d + n) - before)).
Proof.
  intros Hm Hprev Hrow Hhere Hprow Hbefore Hpos Hr Hland Hdepth.
  destruct depth as [|[|[|[|depth]]]]; try lia.
  assert (1 <= pm) as Hpm by (destruct (m =? 1) eqn:E; injection Hprev as -> ->;
                              [lia | apply Z.eqb_neq in E; lia]).
  unfold addDays. cbn [day month num_add].
  rewrite (adjustMonth_step daysInMonthMap _ _ _ here
             (getDaysInMonth_of y m _ months here Hrow ltac:(lia) Hhere)).
  replace (here <? d + n) with false by (symmetry; apply Z.ltb_ge; lia).
  replace (d + n <=? 0) with true by (symmetry; apply Z.leb_le; lia).
  destruct (addMonths_one_back (S depth) y m (Some (Int d)) py pm pmonths before
              Hm Hprev Hprow Hbefore) as [dv' ->].
  cbn [bind].
  rewrite (adjustMonth_step daysInMonthMap _ _ _ before
             (getDaysInMonth_of py pm dv' pmonths before Hprow Hpm Hbefore)).
  destruct (here + (d + n) <=? before) eqn:Hfits.
  - apply Z.leb_le in Hfits.
    replace (before <? here + (d + n)) with false by (symmetry; apply Z.ltb_ge; lia).
    replace (here + (d + n) <=? 0) with false by (symmetry; apply Z.leb_gt; lia).
    reflexivity.
  - apply Z.leb_gt in Hfits.
    replace (before <? here + (d + n)) with true by (symmetry; apply Z.ltb_lt; lia).
    destruct (addMonths_one_forward depth y m dv' py pm months here Hm Hprev Hrow Hhere)
      as [dv'' ->].
    cbn [bind].
    rewrite (adjustMonth_step daysInMonthMap _ _ _ here
               (getDaysInMonth_of y m dv'' months here Hrow ltac:(lia) Hhere)).
    replace (here <? here + (d + n) - before) with false by (symmetry; apply Z.ltb_ge; lia).
    replace (here + (d + n) - before <=? 0) with false by (symmetry; apply Z.leb_gt; lia).
    reflexivity.
Qed.

End Backward.

(** ** Formatting *)

Lemma replace_skip p0 pat repl c s :
  c <> p0 ->
  replace (String p0 pat) repl (String c s)
  = String c (replace (String p0 pat) repl s).
Proof.
  intros Hne. cbn [replace String.prefix].
  destruct (Ascii.ascii_dec p0 c) as [E | _]; [congruence | reflexivity].
Qed.

Lemma digit_is_not c c0 : isDigit c = true -> isDigit c0 = false -> c <> c0.
Proof. intros H H0 E. congruence. Qed.

Lemma replace_nil p0 pat repl : replace (String p0 pat) repl "" = "".
Proof. reflexivity. Qed.

Ltac skip_chars :=
  repeat first
    [ rewrite replace_skip
        by first [ discriminate
                 | apply digit_is_not; [assumption | reflexivity] ]
    | rewrite replace_nil ].

Lemma monthName_of m :
  1 <= m <= 12 ->
  exists name, index MonthNamesEn (num_sub (Int m) (Int 1)) = Some name
               /\ String.eqb name "" = false.
Proof.
  intros Hm.
  assert (m = 1 \/ m = 2 \/ m = 3 \/ m = 4 \/ m = 5 \/ m = 6 \/ m = 7
          \/ m = 8 \/ m = 9 \/ m = 10 \/ m = 11 \/ m = 12) as H by lia.
  repeat (destruct H as [H | H]); subst m; eexists; (split; reflexivity).
Qed.

Section Formatting.

Context (daysInMonthMap : gmap Z (list Z)).
Context (generateDateFormatOrder : string -> list string).

(** X17: With the template [YYYY-MM-DD], and the components taken in the order
    year, month, day, [format] gives what [toString] gives on every valid
    date. *)
Theorem format_YYYY_MM_DD_is_toString y m d :
  printable daysInMonthMap = true ->
  generateDateFormatOrder "YYYY-MM-DD" = ["year"; "month"; "day"] ->
  isDayValid daysInMonthMap (Int y) (Int m) (Int d) = Ok true ->
  format daysInMonthMap generateDateFormatOrder
         (mkBS (Some (Int y)) (Some (Int m)) (Some (Int d))) "YYYY-MM-DD"
  = toString daysInMonthMap (mkBS (Some (Int y)) (Some (Int m)) (Some (Int d))).
Proof.
  intros Hp Horder Hv.
  destruct (isDayValid_true _ _ _ _ Hv) as (y' & m' & d' & n & Ey & Em & Ed & Hn & Hd).
  injection Ey as <-. injection Em as <-. injection Ed as <-.
  destruct (daysInMonth_Ok _ _ _ _ Hn) as (months & Hrow & Hm & Hlook).
  destruct (printable_spec _ _ _ _ _ Hp Hrow Hlook) as [Hy Hn99].
  destruct (pretty_four_digits y Hy) as (a1 & a2 & a3 & a4 & Ey & Ha1 & Ha2 & Ha3 & Ha4).
  destruct (padStart_two_digits m ltac:(lia)) as (b1 & b2 & Em & Hb1 & Hb2).
  destruct (padStart_two_digits d ltac:(lia)) as (c1 & c2 & Ed & Hc1 & Hc2).
  destruct (monthName_of m Hm) as (name & Hname & Hnonempty).
  assert (toString daysInMonthMap (mkBS (Some (Int y)) (Some (Int m)) (Some (Int d)))
          = Ok (String a1 (String a2 (String a3 (String a4 (String "-"
                  (String b1 (String b2 (String "-" (String c1 (String c2 "")))))))))))
    as Hs.
  { unfold toString. cbn [year month day]. rewrite Hv. cbn [bind negb num_toString].
    rewrite Ey, Em, Ed. reflexivity. }
  unfold format. rewrite Hs. cbn [bind].
  replace (String.eqb _ "Invalid Date") with false
    by (symmetry; apply String.eqb_neq; intros E;
        apply (f_equal String.length) in E; discriminate E).
  f_equal. rewrite Horder. cbn [foldl getYear getMonth getDay year month day default from_option id].
  assert ((y =? 0) = false) as Hy0 by (apply Z.eqb_neq; lia).
  assert ((m =? 0) = false) as Hm0 by (apply Z.eqb_neq; lia).
  assert ((d =? 0) = false) as Hd0 by (apply Z.eqb_neq; lia).
  (* the year *)
  assert (formatComponent (Int y) (Int m) (Int d) "YYYY-MM-DD" "year"
          = String a1 (String a2 (String a3 (String a4 "-MM-DD")))) as ->.
  { unfold formatComponent. cbn [String.eqb Ascii.eqb Bool.eqb andb truthy num_toString].
    rewrite Hy0, Ey. cbn [negb].
    assert (replace "YYYY" (String a1 (String a2 (String a3 (String a4 "")))) "YYYY-MM-DD"
            = String a1 (String a2 (String a3 (String a4 "-MM-DD")))) as -> by reflexivity.
    skip_chars. reflexivity. }
  (* the month *)
  assert (formatComponent (Int y) (Int m) (Int d)
            (String a1 (String a2 (String a3 (String a4 "-MM-DD")))) "month"
          = String a1 (String a2 (String a3 (String a4
              (String "-" (String b1 (String b2 "-DD"))))))) as ->.
  { unfold formatComponent. cbn [String.eqb Ascii.eqb Bool.eqb andb truthy num_toString].
    rewrite Hm0, Hname, Hnonempty, Em. cbn [negb].
    skip_chars.
    assert (replace "MMMM" name "MM-DD" = "MM-DD") as -> by reflexivity.
    skip_chars. reflexivity. }
  (* the day *)
  unfold formatComponent. cbn [String.eqb Ascii.eqb Bool.eqb andb truthy num_toString].
  rewrite Hd0, Ed. cbn [negb].
  skip_chars. reflexivity.
Qed.

End Formatting.

(** ** The further facts on the sample tables *)

Lemma addMonths_stack_depth_witness :
  Z.of_nat 2 <= Z.abs ((3 + 24 - 1) / 12)
  /\ addMonths Sample.daysInMonthMap 2 (Int 24) (date 2075 3 1) = Err RangeError.
Proof.
  split; [reflexivity|].
  apply (proj2 (addMonths_stack_depth Sample.daysInMonthMap 2 2075 3 1 24)).
  reflexivity.
Defined.

Lemma addMonths_off_the_table_witness :
  Z.abs ((12 + 1 - 1) / 12) < Z.of_nat 3
  /\ Sample.daysInMonthMap !! (2077 + (12 + 1 - 1) / 12) = None
  /\ addMonths Sample.daysInMonthMap 3 (Int 1) (date 2077 12 1) = Err TypeError.
Proof.
  split; [reflexivity|]. split; [reflexivity|].
  apply (addMonths_off_the_table Sample.daysInMonthMap 3 2077 12 1 1); reflexivity.
Defined.

Lemma addMonths_there_and_back_witness :
  Z.abs ((3 + 1 - 1) / 12) < Z.of_nat 2
  /\ 1 <= 3 <= 12
  /\ Sample.daysInMonthMap !! 2075
     = Some [31; 31; 32; 31; 31; 31; 30; 29; 30; 29; 30; 30]
  /\ [31; 31; 32; 31; 31; 31; 30; 29; 30; 29; 30; 30] !! Z.to_nat (3 - 1) = Some 32
  /\ 1 <= 32 <= 32
  /\ Sample.daysInMonthMap !! (2075 + (3 + 1 - 1) / 12)
     = Some [31; 31; 32; 31; 31; 31; 30; 29; 30; 29; 30; 30]
  /\ [31; 31; 32; 31; 31; 31; 30; 29; 30; 29; 30; 30] !! Z.to_nat ((3 + 1 - 1) mod 12)
     = Some 31
  /\ 1 <= 31
  /\ (b <~ addMonths Sample.daysInMonthMap 2 (Int 1) (date 2075 3 32);;
      addMonths Sample.daysInMonthMap 2 (Int (- 1)) b)
     = Ok (date 2075 3 31).
Proof.
  split; [reflexivity|]. split; [lia|]. split; [reflexivity|]. split; [reflexivity|].
  split; [lia|]. split; [reflexivity|]. split; [reflexivity|]. split; [lia|].
  apply (addMonths_there_and_back Sample.daysInMonthMap 2 2075 3 32 1
           [31; 31; 32; 31; 31; 31; 30; 29; 30; 29; 30; 30] 32
           [31; 31; 32; 31; 31; 31; 30; 29; 30; 29; 30; 30] 31);
    first [reflexivity | lia].
Defined.

Lemma addMonths_leaves_a_valid_date_witness :
  Z.abs ((3 + 0 - 1) / 12) < Z.of_nat 1
  /\ Sample.daysInMonthMap !! (2076 + (3 + 0 - 1) / 12)
     = Some [31; 32; 31; 32; 31; 30; 30; 30; 29; 29; 30; 30]
  /\ [31; 32; 31; 32; 31; 30; 30; 30; 29; 29; 30; 30] !! Z.to_nat ((3 + 0 - 1) mod 12)
     = Some 31
  /\ 1 <= 31
  /\ 1 <= 32
  /\ isDayValid Sample.daysInMonthMap (Int 2076) (Int 3) (Int 32) = Ok false
  /\ exists b,
      addMonths Sample.daysInMonthMap 1 (Int 0) (date 2076 3 32) = Ok b
      /\ isDayValid Sample.daysInMonthMap (getYear b) (getMonth b) (getDay b) = Ok true.
Proof.
  split; [reflexivity|]. split; [reflexivity|]. split; [reflexivity|].
  split; [lia|]. split; [lia|]. split; [reflexivity|].
  apply (addMonths_leaves_a_valid_date Sample.daysInMonthMap 1 2076 3 32 0
           [31; 32; 31; 32; 31; 30; 30; 30; 29; 29; 30; 30] 31);
    first [reflexivity | lia].
Defined.

Lemma isLeapYear_counts_the_days_witness :
  tabulated Sample.daysInMonthMap Sample.newYearMap 2077 = true
  /\ Sample.newYearMap !! 2077 = Some (mkGregorian 2020 4 13)
  /\ Sample.newYearMap !! (2077 + 1) = Some (mkGregorian 2021 4 14)
  /\ isLeapYear Sample.daysInMonthMap (date 2077 5 5) = Ok true
  /\ Sample.daysInMonthMap !! 2080 = None
  /\ isLeapYear Sample.daysInMonthMap (date 2080 5 5) = Err TypeError.
Proof.
  pose proof (isLeapYear_counts_the_days Sample.daysInMonthMap Sample.newYearMap)
    as H.
  split; [reflexivity|]. split; [reflexivity|]. split; [reflexivity|]. split.
  - apply (proj2 (proj2 (H 2077 (Some (Int 5)) (Some (Int 5))))
                 (mkGregorian 2020 4 13) (mkGregorian 2021 4 14)); reflexivity.
  - split; [reflexivity|].
    apply (proj1 (proj2 (H 2080 (Some (Int 5)) (Some (Int 5))))). reflexivity.
Defined.

Lemma neighbouring_months_witness :
  1 <= 1 <= 12
  /\ getPreviousMonth (date 2075 1 1) = MonthOf (mkMonth "Chaitra" "चैत्र" "Mar/Apr")
  /\ 1 <= 12 <= 12 /\ 12 <> 11
  /\ getNextMonth (date 2075 12 1) = MonthOf (mkMonth "Baisakh" "बैशाख" "Apr/May")
  /\ truthy (Some (Int 0)) = false
  /\ getNextMonth (mkBS (Some (Int 2075)) (Some (Int 0)) (Some (Int 1))) = MonthNull.
Proof.
  split; [lia|]. split.
  - destruct (proj1 (neighbouring_months (Some (Int 2075)) (Some (Int 1)) 1)
                    ltac:(lia)) as (desc & Hdesc & ->).
    injection Hdesc as <-. reflexivity.
  - split; [lia|]. split; [lia|]. split.
    + destruct (proj1 (proj2 (neighbouring_months (Some (Int 2075)) (Some (Int 1)) 12))
                      ltac:(lia) ltac:(lia)) as (desc & Hdesc & ->).
      injection Hdesc as <-. reflexivity.
    + split; [reflexivity|].
      apply (proj2 (proj2 (neighbouring_months (Some (Int 2075)) (Some (Int 1)) 1))
                   (Some (Int 0))).
      reflexivity.
Defined.

Lemma getDayOfWeek_without_day_witness :
  truthy None = false
  /\ getDayOfWeek Sample.daysInMonthMap Sample.newYearMap Sample.now
                  (mkBS (Some (Int 2075)) (Some (Int 3)) None)
     = Ok (Int 4).
Proof.
  split; [reflexivity|].
  apply (proj2 (proj2 (getDayOfWeek_without_day Sample.daysInMonthMap Sample.newYearMap
                         Sample.now None None None))
               (Int 2075) (Int 3)).
  reflexivity.
Defined.

Lemma addDays_forward_is_calendar_addition_witness :
  tabulatedFrom Sample.daysInMonthMap Sample.newYearMap 2075 1 = true
  /\ isDayValid Sample.daysInMonthMap (Int 2075) (Int 12) (Int 30) = Ok true
  /\ 0 <= 300
  /\ toGregorian Sample.daysInMonthMap Sample.newYearMap Sample.now (date 2075 12 30)
     = Ok (Some (mkGregorian 2019 4 13))
  /\ Sample.newYearMap !! (2075 + Z.of_nat 1 + 1) = Some (mkGregorian 2020 4 13)
  /\ dayNumber (mkGregorian 2019 4 13) + 300 < dayNumber (mkGregorian 2020 4 13)
  /\ (12 * 2 < 25)%nat
  /\ exists b,
      addDays Sample.daysInMonthMap 25 (Int 300) (date 2075 12 30) = Ok b
      /\ isDayValid Sample.daysInMonthMap (getYear b) (getMonth b) (getDay b) = Ok true
      /\ toGregorian Sample.daysInMonthMap Sample.newYearMap Sample.now b
         = Ok (Some (shift (mkGregorian 2019 4 13) 300)).
Proof.
  split; [reflexivity|]. split; [reflexivity|]. split; [lia|]. split; [reflexivity|].
  split; [reflexivity|]. split; [reflexivity|]. split; [lia|].
  apply (addDays_forward_is_calendar_addition Sample.daysInMonthMap Sample.newYearMap
           Sample.now 25 2075 12 30 300 1%nat (mkGregorian 2019 4 13)
           (mkGregorian 2020 4 13));
    first [reflexivity | lia].
Defined.

Lemma getDayOfWeek_after_addDays_witness :
  tabulatedFrom Sample.daysInMonthMap Sample.newYearMap 2077 0 = true
  /\ isDayValid Sample.daysInMonthMap (Int 2077) (Int 1) (Int 1) = Ok true
  /\ 0 <= 10
  /\ toGregorian Sample.daysInMonthMap Sample.newYearMap Sample.now (date 2077 1 1)
     = Ok (Some (mkGregorian 2020 4 13))
  /\ Sample.newYearMap !! (2077 + Z.of_nat 0 + 1) = Some (mkGregorian 2021 4 14)
  /\ dayNumber (mkGregorian 2020 4 13) + 10 < dayNumber (mkGregorian 2021 4 14)
  /\ (12 * 1 < 13)%nat
  /\ exists b w,
      addDays Sample.daysInMonthMap 13 (Int 10) (date 2077 1 1) = Ok b
      /\ getDayOfWeek Sample.daysInMonthMap Sample.newYearMap Sample.now (date 2077 1 1)
         = Ok (Int w)
      /\ 0 <= w <= 6
      /\ getDayOfWeek Sample.daysInMonthMap Sample.newYearMap Sample.now b
         = Ok (Int ((w + 10) mod 7)).
Proof.
  split; [reflexivity|]. split; [reflexivity|]. split; [lia|]. split; [reflexivity|].
  split; [reflexivity|]. split; [reflexivity|]. split; [lia|].
  apply (getDayOfWeek_after_addDays Sample.daysInMonthMap Sample.newYearMap
           Sample.now 13 2077 1 1 10 0%nat (mkGregorian 2020 4 13)
           (mkGregorian 2021 4 14));
    first [reflexivity | lia].
Defined.

Lemma toGregorian_within_the_year_witness :
  tabulated Sample.daysInMonthMap Sample.newYearMap 2076 = true
  /\ Sample.newYearMap !! 2076 = Some (mkGregorian 2019 4 14)
  /\ Sample.newYearMap !! (2076 + 1) = Some (mkGregorian 2020 4 13)
  /\ isDayValid Sample.daysInMonthMap (Int 2076) (Int 12) (Int 30) = Ok true
  /\ toGregorian Sample.daysInMonthMap Sample.newYearMap Sample.now (date 2076 1 1)
     = Ok (Some (mkGregorian 2019 4 14))
  /\ exists g,
      toGregorian Sample.daysInMonthMap Sample.newYearMap Sample.now (date 2076 12 30)
      = Ok (Some g)
      /\ valid g = true
      /\ dayNumber (mkGregorian 2019 4 14) <= dayNumber g
         < dayNumber (mkGregorian 2020 4 13).
Proof.
  split; [reflexivity|]. split; [reflexivity|]. split; [reflexivity|].
  split; [reflexivity|].
  apply (toGregorian_within_the_year Sample.daysInMonthMap Sample.newYearMap Sample.now
           2076 12 30 (mkGregorian 2019 4 14) (mkGregorian 2020 4 13));
    reflexivity.
Defined.

Lemma toGregorian_keeps_the_order_witness :
  newYearsIncreasing Sample.newYearMap = true
  /\ tabulated Sample.daysInMonthMap Sample.newYearMap 2075 = true
  /\ tabulated Sample.daysInMonthMap Sample.newYearMap 2076 = true
  /\ isDayValid Sample.daysInMonthMap (Int 2075) (Int 12) (Int 30) = Ok true
  /\ isDayValid Sample.daysInMonthMap (Int 2076) (Int 1) (Int 1) = Ok true
  /\ toGregorian Sample.daysInMonthMap Sample.newYearMap Sample.now (date 2075 12 30)
     = Ok (Some (mkGregorian 2019 4 13))
  /\ toGregorian Sample.daysInMonthMap Sample.newYearMap Sample.now (date 2076 1 1)
     = Ok (Some (mkGregorian 2019 4 14))
  /\ (2075 < 2076 \/ (2075 = 2076 /\ (12 < 1 \/ (12 = 1 /\ 30 < 1))))
  /\ dayNumber (mkGregorian 2019 4 13) < dayNumber (mkGregorian 2019 4 14).
Proof.
  split; [reflexivity|]. split; [reflexivity|]. split; [reflexivity|].
  split; [reflexivity|]. split; [reflexivity|]. split; [reflexivity|].
  split; [reflexivity|]. split; [left; lia|].
  apply (toGregorian_keeps_the_order Sample.daysInMonthMap Sample.newYearMap Sample.now
           2075 12 30 2076 1 1 (mkGregorian 2019 4 13) (mkGregorian 2019 4 14));
    first [reflexivity | left; lia].
Defined.

Lemma toBikramSambat_gives_a_valid_date_witness :
  newYearsIncreasing Sample.newYearMap = true
  /\ tabulated Sample.daysInMonthMap Sample.newYearMap 2076 = true
  /\ Sample.parse (pretty 2076 +:+ "-01-01")
     = ParseDate (Some (Int 2076)) (Some (Int 1)) (Some (Int 1))
  /\ inNewYearInterval Sample.newYearMap (mkGregorian 2020 2 29) 2076 = true
  /\ (12 <= 12)%nat
  /\ exists b,
      toBikramSambat Sample.daysInMonthMap Sample.newYearMap Sample.parse Sample.parseAD
                     12 (AdDate (Some (mkGregorian 2020 2 29))) = Ok b
      /\ getYear b = Int 2076
      /\ isDayValid Sample.daysInMonthMap (getYear b) (getMonth b) (getDay b) = Ok true.
Proof.
  split; [reflexivity|]. split; [reflexivity|]. split; [reflexivity|].
  split; [reflexivity|]. split; [lia|].
  apply (toBikramSambat_gives_a_valid_date Sample.daysInMonthMap Sample.newYearMap
           Sample.parse Sample.parseAD 12 (mkGregorian 2020 2 29) 2076);
    first [reflexivity | lia].
Defined.

Lemma addDays_back_into_the_previous_month_witness :
  1 <= 1 <= 12
  /\ (2075, 12) = (if 1 =? 1 then (2076 - 1, 12) else (2076, 1 - 1))
  /\ Sample.daysInMonthMap !! 2076 = Some [31; 32; 31; 32; 31; 30; 30; 30; 29; 29; 30; 30]
  /\ [31; 32; 31; 32; 31; 30; 30; 30; 29; 29; 30; 30] !! Z.to_nat (1 - 1) = Some 31
  /\ Sample.daysInMonthMap !! 2075 = Some [31; 31; 32; 31; 31; 31; 30; 29; 30; 29; 30; 30]
  /\ [31; 31; 32; 31; 31; 31; 30; 29; 30; 29; 30; 30] !! Z.to_nat (12 - 1) = Some 30
  /\ 1 <= 30
  /\ 1 + -1 <= 0
  /\ 0 < 31 + (1 + -1)
  /\ (4 <= 4)%nat
  /\ addDays Sample.daysInMonthMap 4 (Int (-1)) (date 2076 1 1) = Ok (date 2076 1 1).
Proof.
  split; [lia|]. split; [reflexivity|]. split; [reflexivity|]. split; [reflexivity|].
  split; [reflexivity|]. split; [reflexivity|].
  split; [lia|]. split; [lia|]. split; [lia|]. split; [lia|].
  apply (addDays_back_into_the_previous_month Sample.daysInMonthMap 4 2076 1 1 (-1)
           [31; 32; 31; 32; 31; 30; 30; 30; 29; 29; 30; 30] 31 2075 12
           [31; 31; 32; 31; 31; 31; 30; 29; 30; 29; 30; 30] 30);
    first [reflexivity | lia].
Defined.

Lemma format_YYYY_MM_DD_is_toString_witness :
  printable Sample.daysInMonthMap = true
  /\ Sample.generateDateFormatOrder "YYYY-MM-DD" = ["year"; "month"; "day"]
  /\ isDayValid Sample.daysInMonthMap (Int 2077) (Int 1) (Int 1) = Ok true
  /\ format Sample.daysInMonthMap Sample.generateDateFormatOrder (date 2077 1 1)
            "YYYY-MM-DD"
     = Ok "2077-01-01".
Proof.
  split; [reflexivity|]. split; [reflexivity|]. split; [reflexivity|].
  apply (format_YYYY_MM_DD_is_toString Sample.daysInMonthMap
           Sample.generateDateFormatOrder 2077 1 1); reflexivity.
Defined.

(** ** Facts about the date formats *)

Lemma tryCounts_sound lo n l k caps :
  tryCounts lo n l k = Some caps ->
  exists i, (lo <= i <= n)%nat /\ k (drop i l) = Some caps.
Proof.
  induction n as [|n IH]; cbn [tryCounts].
  - destruct (0 <? lo)%nat eqn:E; [discriminate|]. apply Nat.ltb_ge in E.
    destruct (k (drop 0 l)) as [caps'|] eqn:Hk; [|discriminate].
    intros [= <-]. exists 0%nat. split; [lia | exact Hk].
  - destruct (S n <? lo)%nat eqn:E; [discriminate|]. apply Nat.ltb_ge in E.
    destruct (k (drop (S n) l)) as [caps'|] eqn:Hk.
    + intros [= <-]. exists (S n). split; [lia | exact Hk].
    + intros H. destruct (IH H) as (i & Hi & Hki). exists i. split; [lia | exact Hki].
Qed.

Lemma classRun_take k l : forall i,
  (i <= classRun k l)%nat ->
  Forall (fun c => inClass k c = true) (take i l) /\ length (take i l) = i.
Proof.
  induction l as [|c l IH]; intros i Hi; cbn [classRun] in Hi.
  - assert (i = 0%nat) as -> by lia. split; [constructor | reflexivity].
  - destruct (inClass k c) eqn:Hc.
    + destruct i as [|i]; [split; [constructor | reflexivity]|].
      destruct (IH i ltac:(lia)) as [Hall Hlen]. cbn [take]. split.
      * constructor; assumption.
      * cbn [length]. rewrite Hlen. reflexivity.
    + assert (i = 0%nat) as -> by lia. split; [constructor | reflexivity].
Qed.

(** What matches is a word of the pattern, followed by what the continuation
    accepts. *)
Lemma run_sound r : forall l k caps,
  run r l k = Some caps ->
  exists w rest caps', l = w ++ rest /\ lang r w /\ k rest = Some caps'.
Proof.
  induction r as [cls lo hi | r IH | r IH | r1 IH1 r2 IH2]; intros l k caps H;
    cbn [run lang] in *.
  - destruct (tryCounts_sound _ _ _ _ _ H) as (i & Hi & Hk).
    assert (i <= classRun cls l)%nat as Hrun by (destruct hi; lia).
    destruct (classRun_take cls l i Hrun) as [Hall Hlen].
    exists (take i l), (drop i l), caps. split; [symmetry; apply take_drop|].
    split; [|exact Hk]. split; [exact Hall|]. rewrite Hlen.
    split; [lia|]. destruct hi; [lia | exact I].
  - destruct (run r l _) as [caps0|] eqn:Hrun; [|discriminate].
    destruct (IH _ _ _ Hrun) as (w & rest & caps' & Hl & Hw & Hk).
    destruct (k rest) as [caps''|] eqn:Hk'; [|discriminate].
    exists w, rest, caps''. repeat split; assumption.
  - exact (IH _ _ _ H).
  - destruct (IH1 _ _ _ H) as (w1 & rest1 & caps1 & Hl1 & Hw1 & Hk1).
    destruct (IH2 _ _ _ Hk1) as (w2 & rest2 & caps2 & Hl2 & Hw2 & Hk2).
    exists (w1 ++ w2), rest2, caps2. split; [rewrite Hl1, Hl2, app_assoc; reflexivity|].
    split; [|exact Hk2]. exists w1, w2. repeat split; assumption.
Qed.

Lemma exec_sound r s :
  exec r s <> None -> lang r (String.list_ascii_of_string s).
Proof.
  unfold exec. intros H.
  destruct (run r _ _) as [caps|] eqn:Hrun; [|congruence].
  destruct (run_sound _ _ _ _ Hrun) as (w & rest & caps' & Hl & Hw & Hk).
  destruct rest; [|discriminate]. rewrite app_nil_r in Hl. rewrite Hl. exact Hw.
Qed.

(** The three classes have no character in common, and none has the dot. *)
Lemma classes_disjoint c :
  (inClass Digit c = true -> inClass Letter c = false /\ inClass Separator c = false)
  /\ (inClass Letter c = true -> inClass Digit c = false /\ inClass Separator c = false)
  /\ (inClass Separator c = true -> inClass Digit c = false /\ inClass Letter c = false).
Proof.
  destruct c as [[] [] [] [] [] [] [] []]; vm_compute; repeat split; congruence.
Qed.

Lemma inClass_other k k' c :
  inClass k' c = true -> k <> k' -> inClass k c = false.
Proof.
  intros H Hne. pose proof (classes_disjoint c) as (HD & HL & HS).
  destruct k, k'; try congruence;
    first [ apply (proj1 (HD H)) | apply (proj2 (HD H))
          | apply (proj1 (HL H)) | apply (proj2 (HL H))
          | apply (proj1 (HS H)) | apply (proj2 (HS H)) ].
Qed.

Lemma countClass_app k a b : countClass k (a ++ b) = (countClass k a + countClass k b)%nat.
Proof. unfold countClass. rewrite filter_app, length_app. reflexivity. Qed.

Lemma countClass_all k w :
  Forall (fun c => inClass k c = true) w -> countClass k w = length w.
Proof.
  unfold countClass. induction 1 as [|c w Hc _ IH]; [reflexivity|].
  rewrite filter_cons_True by exact Hc. cbn [length]. rewrite IH. reflexivity.
Qed.

Lemma countClass_none k k' w :
  Forall (fun c => inClass k' c = true) w -> k <> k' -> countClass k w = 0%nat.
Proof.
  unfold countClass. intros Hw Hne. induction Hw as [|c w Hc _ IH]; [reflexivity|].
  rewrite filter_cons_False; [exact IH|].
  rewrite (inClass_other k k' c Hc Hne). discriminate.
Qed.

Lemma classRun_app k w rest :
  Forall (fun c => inClass k c = true) w ->
  classRun k (w ++ rest) = (length w + classRun k rest)%nat.
Proof.
  induction 1 as [|c w Hc _ IH]; [reflexivity|].
  cbn [app classRun length]. rewrite Hc, IH. reflexivity.
Qed.

Lemma classRun_all k w :
  Forall (fun c => inClass k c = true) w -> classRun k w = length w.
Proof.
  intros H. rewrite <- (app_nil_r w) at 1. rewrite (classRun_app k w [] H).
  cbn [classRun]. lia.
Qed.

Lemma classRun_other k k' c rest :
  inClass k' c = true -> k <> k' -> classRun k (c :: rest) = 0%nat.
Proof. intros H Hne. cbn [classRun]. rewrite (inClass_other k k' c H Hne). reflexivity. Qed.

(** A word of [[-/ ]] is one separator. *)
Lemma separator_word w :
  lang separator w -> exists c, w = [c] /\ inClass Separator c = true.
Proof.
  cbn. intros (Hall & Hlo & Hhi).
  destruct w as [|c [|c' w]]; cbn in Hlo, Hhi; try lia.
  exists c. split; [reflexivity|]. inversion Hall; assumption.
Qed.

Lemma digits_word lo hi w :
  lang (digits lo hi) w ->
  Forall (fun c => inClass Digit c = true) w /\ (lo <= length w <= hi)%nat.
Proof. cbn. intros (Hall & Hlo & Hhi). split; [exact Hall | lia]. Qed.

(** The shape of the words of each pattern. *)
Lemma words_of_two_fields a b c d w :
  lang (Seq (digits a b) (NonCapture (Seq separator (digits c d)))) w ->
  exists d1 s1 d2,
    w = d1 ++ [s1] ++ d2
    /\ Forall (fun c => inClass Digit c = true) d1 /\ (a <= length d1 <= b)%nat
    /\ inClass Separator s1 = true
    /\ Forall (fun c => inClass Digit c = true) d2 /\ (c <= length d2 <= d)%nat.
Proof.
  cbn [lang]. intros (w1 & w2 & -> & H1 & (w3 & w4 & -> & H3 & H4)).
  apply digits_word in H1 as [Hd1 Hl1]. apply digits_word in H4 as [Hd2 Hl2].
  apply separator_word in H3 as (s1 & -> & Hs1).
  exists w1, s1, w4. repeat split; assumption || lia.
Qed.

Lemma words_of_three_fields a b mid e f w :
  lang (Seq (digits a b)
            (Seq (NonCapture (Seq separator mid))
                 (NonCapture (Seq separator (digits e f))))) w ->
  exists d1 s1 m s2 d3,
    w = d1 ++ [s1] ++ m ++ [s2] ++ d3
    /\ Forall (fun c => inClass Digit c = true) d1 /\ (a <= length d1 <= b)%nat
    /\ inClass Separator s1 = true
    /\ lang mid m
    /\ inClass Separator s2 = true
    /\ Forall (fun c => inClass Digit c = true) d3 /\ (e <= length d3 <= f)%nat.
Proof.
  cbn [lang].
  intros (w1 & w2 & -> & H1 & (w3 & w4 & -> & (w5 & w6 & -> & H5 & H6)
                                 & (w7 & w8 & -> & H7 & H8))).
  apply digits_word in H1 as [Hd1 Hl1]. apply digits_word in H8 as [Hd3 Hl3].
  apply separator_word in H5 as (s1 & -> & Hs1).
  apply separator_word in H7 as (s2 & -> & Hs2).
  exists w1, s1, w6, s2, w8. split.
  - rewrite <- !app_assoc. reflexivity.
  - repeat split; assumption || lia.
Qed.

Lemma two_fields_fingerprint a b c d w :
  lang (Seq (digits a b) (NonCapture (Seq separator (digits c d)))) w ->
  countClass Separator w = 1%nat /\ (a <= classRun Digit w <= b)%nat.
Proof.
  intros H. apply words_of_two_fields in H
    as (d1 & s1 & d2 & -> & Hd1 & Hl1 & Hs1 & Hd2 & Hl2).
  split.
  - rewrite !countClass_app.
    rewrite (countClass_none Separator Digit d1 Hd1) by discriminate.
    rewrite (countClass_none Separator Digit d2 Hd2) by discriminate.
    rewrite (countClass_all Separator [s1]) by (repeat constructor; exact Hs1).
    reflexivity.
  - rewrite (classRun_app Digit d1 _ Hd1). cbn [app].
    rewrite (classRun_other Digit Separator s1 _ Hs1) by discriminate. lia.
Qed.

Lemma three_fields_fingerprint a b mid e f w :
  (forall m, lang mid m -> countClass Separator m = 0%nat) ->
  lang (Seq (digits a b)
            (Seq (NonCapture (Seq separator mid))
                 (NonCapture (Seq separator (digits e f))))) w ->
  countClass Separator w = 2%nat
  /\ (e <= classRun Digit (reverse w) <= f)%nat
  /\ exists m, lang mid m /\ countClass Letter w = countClass Letter m.
Proof.
  intros Hmid H. apply words_of_three_fields in H
    as (d1 & s1 & m & s2 & d3 & -> & Hd1 & Hl1 & Hs1 & Hm & Hs2 & Hd3 & Hl3).
  split; [|split].
  - rewrite !countClass_app. rewrite (Hmid m Hm).
    rewrite (countClass_none Separator Digit d1 Hd1) by discriminate.
    rewrite (countClass_none Separator Digit d3 Hd3) by discriminate.
    rewrite (countClass_all Separator [s1]) by (repeat constructor; exact Hs1).
    rewrite (countClass_all Separator [s2]) by (repeat constructor; exact Hs2).
    reflexivity.
  - rewrite !reverse_app. rewrite <- !app_assoc.
    rewrite (classRun_app Digit (reverse d3)) by (apply Forall_reverse; exact Hd3).
    rewrite length_reverse. change (reverse [s2]) with [s2]. cbn [app].
    rewrite (classRun_other Digit Separator s2 _ Hs2) by discriminate. lia.
  - exists m. split; [exact Hm|].
    rewrite !countClass_app.
    rewrite (countClass_none Letter Digit d1 Hd1) by discriminate.
    rewrite (countClass_none Letter Digit d3 Hd3) by discriminate.
    rewrite (countClass_none Letter Separator [s1]) by (repeat constructor; assumption || discriminate).
    rewrite (countClass_none Letter Separator [s2]) by (repeat constructor; assumption || discriminate).
    lia.
Qed.

Lemma digits_no_separator lo hi m :
  lang (digits lo hi) m -> countClass Separator m = 0%nat.
Proof.
  intros H. apply digits_word in H as [Hd _].
  apply (countClass_none Separator Digit m Hd). discriminate.
Qed.

Lemma letters_no_separator m :
  lang (Capture (Chars Letter 1 None)) m -> countClass Separator m = 0%nat.
Proof.
  cbn. intros (Hl & _ & _). apply (countClass_none Separator Letter m Hl). discriminate.
Qed.

(** What tells the patterns apart: the number of separators, the number of
    letters, and the lengths of the first and of the last run of digits. *)
Lemma fingerprint f w :
  In f DateFormats ->
  lang (regex_of f) w ->
  (f = mkDateFormat pattern_YYYY "YYYY" /\ countClass Separator w = 0%nat)
  \/ (f = mkDateFormat pattern_YYYY_MM "YYYY-MM"
      /\ countClass Separator w = 1%nat /\ classRun Digit w = 4%nat)
  \/ (f = mkDateFormat pattern_YYYY_MM_DD "YYYY-MM-DD"
      /\ countClass Separator w = 2%nat /\ countClass Letter w = 0%nat
      /\ (classRun Digit (reverse w) <= 2)%nat)
  \/ (f = mkDateFormat pattern_DD_MMMM_YYYY "DD-MMMM-YYYY"
      /\ countClass Separator w = 2%nat /\ (1 <= countClass Letter w)%nat)
  \/ (f = mkDateFormat pattern_DD_MM_YYYY "DD-MM-YYYY"
      /\ countClass Separator w = 2%nat /\ countClass Letter w = 0%nat
      /\ classRun Digit (reverse w) = 4%nat)
  \/ (f = mkDateFormat pattern_MM_DD "MM-DD"
      /\ countClass Separator w = 1%nat /\ (classRun Digit w <= 2)%nat).
Proof.
  intros Hf Hw.
  cbn [In DateFormats] in Hf.
  destruct Hf as [<- | [<- | [<- | [<- | [<- | [<- | []]]]]]]; cbn [regex_of] in Hw.
  - left. split; [reflexivity|]. exact (digits_no_separator _ _ _ Hw).
  - right; left. split; [reflexivity|].
    destruct (two_fields_fingerprint _ _ _ _ _ Hw) as [Hs Hf]. lia.
  - right; right; left. split; [reflexivity|].
    destruct (three_fields_fingerprint _ _ _ _ _ _ (digits_no_separator 1 2) Hw)
      as (Hs & Hl & m & Hm & Hlet).
    apply digits_word in Hm as [Hm _].
    rewrite (countClass_none Letter Digit m Hm) in Hlet by discriminate. lia.
  - right; right; right; left. split; [reflexivity|].
    destruct (three_fields_fingerprint _ _ _ _ _ _ letters_no_separator Hw)
      as (Hs & Hl & m & Hm & Hlet).
    cbn in Hm. destruct Hm as (Hm & Hlen & _).
    rewrite (countClass_all Letter m Hm) in Hlet. lia.
  - right; right; right; right; left. split; [reflexivity|].
    destruct (three_fields_fingerprint _ _ _ _ _ _ (digits_no_separator 1 2) Hw)
      as (Hs & Hl & m & Hm & Hlet).
    apply digits_word in Hm as [Hm _].
    rewrite (countClass_none Letter Digit m Hm) in Hlet by discriminate. lia.
  - right; right; right; right; right. split; [reflexivity|].
    destruct (two_fields_fingerprint _ _ _ _ _ Hw) as [Hs Hf]. lia.
Qed.

(** X18: No text is accepted by two of the six patterns: the format found for a
    text does not depend on the order of [DateFormats]. *)
Theorem DateFormats_do_not_overlap s f g :
  In f DateFormats -> In g DateFormats ->
  exec (regex_of f) s <> None -> exec (regex_of g) s <> None ->
  f = g.
Proof.
  intros Hf Hg Hfs Hgs.
  apply exec_sound in Hfs. apply exec_sound in Hgs.
  pose proof (fingerprint f _ Hf Hfs) as Ff. pose proof (fingerprint g _ Hg Hgs) as Fg.
  destruct Ff as [[-> Ff] | [[-> Ff] | [[-> Ff] | [[-> Ff] | [[-> Ff] | [-> Ff]]]]]];
    destruct Fg as [[-> Fg] | [[-> Fg] | [[-> Fg] | [[-> Fg] | [[-> Fg] | [-> Fg]]]]]];
    first [reflexivity | exfalso; lia].
Qed.

(** The words of a pattern are made of digits, letters and separators. *)
Lemma lang_classes r : forall w,
  lang r w ->
  Forall (fun c => inClass Digit c || inClass Letter c || inClass Separator c = true) w.
Proof.
  induction r as [cls lo hi | r IH | r IH | r1 IH1 r2 IH2]; intros w H; cbn [lang] in H.
  - destruct H as (Hall & _ & _). eapply Forall_impl; [exact Hall|].
    intros c Hc. cbn beta in *. destruct cls; rewrite Hc;
      rewrite ?orb_true_r; reflexivity.
  - exact (IH w H).
  - exact (IH w H).
  - destruct H as (w1 & w2 & -> & H1 & H2). apply Forall_app. split; auto.
Qed.

(** X19: A pattern accepts digits, letters and the separators [-], [/] and space
    only: no text with a dot is accepted, so the separator [. ] that the type
    [DateSeparator] lists is read by none of the formats. *)
Theorem DateFormats_accept_no_dot s f :
  In f DateFormats ->
  exec (regex_of f) s <> None ->
  ~ In "."%char (String.list_ascii_of_string s).
Proof.
  intros _ Hs Hdot. apply exec_sound, lang_classes in Hs.
  rewrite Forall_forall in Hs. apply list_elem_of_In in Hdot.
  specialize (Hs _ Hdot). discriminate Hs.
Qed.

(** ** The captures *)

Lemma langCaps_lang r : forall w caps, langCaps r w caps -> lang r w.
Proof.
  induction r as [cls lo hi | r IH | r IH | r1 IH1 r2 IH2]; intros w caps H;
    cbn [langCaps lang] in *.
  - exact (proj1 H).
  - destruct H as (inner & H & _). exact (IH _ _ H).
  - exact (IH _ _ H).
  - destruct H as (w1 & w2 & c1 & c2 & -> & H1 & H2 & _).
    exists w1, w2. repeat split; eauto.
Qed.

(** What matches is a word of the pattern; its captures come first, one for
    each group, and those of the continuation after them. *)
Lemma run_captures r : forall l k caps,
  run r l k = Some caps ->
  exists w rest mine others,
    l = w ++ rest /\ langCaps r w mine /\ length mine = groups r
    /\ k rest = Some others /\ caps = mine ++ others.
Proof.
  induction r as [cls lo hi | r IH | r IH | r1 IH1 r2 IH2]; intros l k caps H;
    cbn [run langCaps groups] in *.
  - destruct (tryCounts_sound _ _ _ _ _ H) as (i & Hi & Hk).
    assert (i <= classRun cls l)%nat as Hrun by (destruct hi; lia).
    destruct (classRun_take cls l i Hrun) as [Hall Hlen].
    exists (take i l), (drop i l), [], caps.
    split; [symmetry; apply take_drop|]. split; [|auto].
    split; [|reflexivity]. cbn [lang]. split; [exact Hall|]. rewrite Hlen.
    split; [lia|]. destruct hi; [lia | exact I].
  - destruct (run r l _) as [caps0|] eqn:Hrun; [|discriminate].
    destruct (IH _ _ _ Hrun) as (w & rest & inner & others0 & Hl & Hw & Hlen & Hk & ->).
    destruct (k rest) as [others|] eqn:Hk'; [|discriminate].
    injection Hk as <-.
    rewrite <- Hlen in H. rewrite drop_app_length, take_app_length in H.
    injection H as <-.
    exists w, rest, (String.string_of_list_ascii w :: inner), others.
    split; [exact Hl|]. split; [exists inner; split; [exact Hw | reflexivity]|].
    split; [cbn [length]; rewrite Hlen; reflexivity|]. split; [exact Hk'|].
    rewrite Hl, length_app.
    replace (length w + length rest - length rest)%nat with (length w) by lia.
    rewrite take_app_length. reflexivity.
  - exact (IH _ _ _ H).
  - destruct (IH1 _ _ _ H) as (w1 & rest1 & c1 & o1 & Hl1 & Hw1 & Hn1 & Hk1 & ->).
    destruct (IH2 _ _ _ Hk1) as (w2 & rest2 & c2 & o2 & Hl2 & Hw2 & Hn2 & Hk2 & ->).
    exists (w1 ++ w2), rest2, (c1 ++ c2), o2.
    split; [rewrite Hl1, Hl2, app_assoc; reflexivity|].
    split; [exists w1, w2, c1, c2; repeat split; assumption|].
    split; [rewrite length_app; lia|]. split; [exact Hk2|].
    rewrite app_assoc. reflexivity.
Qed.

Lemma exec_captures r s caps :
  exec r s = Some caps ->
  langCaps r (String.list_ascii_of_string s) caps /\ length caps = groups r.
Proof.
  unfold exec. intros H.
  destruct (run_captures _ _ _ _ H) as (w & rest & mine & others & Hl & Hw & Hn & Hk & ->).
  destruct rest; [|discriminate]. injection Hk as <-.
  rewrite app_nil_r in *. rewrite Hl. split; assumption.
Qed.

(** X20: A text the pattern [YYYY-MM-DD] accepts is three runs of digits, of 2 to
    4, 1 to 2 and 1 to 2 characters, with one separator between them; the
    captures are the three runs. *)
Theorem YYYY_MM_DD_captures s caps :
  exec pattern_YYYY_MM_DD s = Some caps ->
  exists y s1 m s2 d,
    String.list_ascii_of_string s = y ++ [s1] ++ m ++ [s2] ++ d
    /\ caps = [String.string_of_list_ascii y; String.string_of_list_ascii m;
               String.string_of_list_ascii d]
    /\ Forall (fun c => inClass Digit c = true) (y ++ m ++ d)
    /\ (2 <= length y <= 4)%nat /\ (1 <= length m <= 2)%nat /\ (1 <= length d <= 2)%nat
    /\ inClass Separator s1 = true /\ inClass Separator s2 = true.
Proof.
  intros H. apply exec_captures in H as [H _].
  cbn [pattern_YYYY_MM_DD digits separator langCaps lang] in H.
  destruct H as (w1 & w2 & c1 & c2 & Hw & (i1 & ((Hy & Hy1 & Hy2) & ->) & ->) & H2 & ->).
  destruct H2 as (w3 & w4 & c3 & c4 & -> & H3 & H4 & ->).
  destruct H3 as (w5 & w6 & c5 & c6 & -> & ((Hs1 & Hs1a & Hs1b) & ->)
                  & (i2 & ((Hm & Hm1 & Hm2) & ->) & ->) & ->).
  destruct H4 as (w7 & w8 & c7 & c8 & -> & ((Hs2 & Hs2a & Hs2b) & ->)
                  & (i3 & ((Hd & Hd1 & Hd2) & ->) & ->) & ->).
  destruct w5 as [|s1 [|? ?]]; cbn [length] in Hs1a, Hs1b; try lia.
  destruct w7 as [|s2 [|? ?]]; cbn [length] in Hs2a, Hs2b; try lia.
  exists w1, s1, w6, s2, w8. split.
  - rewrite Hw, <- !app_assoc. reflexivity.
  - split; [reflexivity|]. split; [rewrite !Forall_app; auto|].
    repeat split; try lia; [inversion Hs1 | inversion Hs2]; assumption.
Qed.

Lemma exec_printed_date a1 a2 a3 a4 b1 b2 c1 c2 :
  inClass Digit a1 = true -> inClass Digit a2 = true ->
  inClass Digit a3 = true -> inClass Digit a4 = true ->
  inClass Digit b1 = true -> inClass Digit b2 = true ->
  inClass Digit c1 = true -> inClass Digit c2 = true ->
  exec pattern_YYYY_MM_DD
       (String a1 (String a2 (String a3 (String a4 (String "-"
          (String b1 (String b2 (String "-" (String c1 (String c2 ""))))))))))
  = Some [String a1 (String a2 (String a3 (String a4 "")));
          String b1 (String b2 ""); String c1 (String c2 "")].
Proof.
  intros Ha1 Ha2 Ha3 Ha4 Hb1 Hb2 Hc1 Hc2.
  assert (inClass Digit "-" = false) as Hdash by reflexivity.
  assert (inClass Separator "-" = true) as Hsep by reflexivity.
  pose proof (proj2 (proj1 (classes_disjoint b1) Hb1)) as Hb1s.
  pose proof (proj2 (proj1 (classes_disjoint c1) Hc1)) as Hc1s.
  unfold exec, pattern_YYYY_MM_DD, digits, separator.
  cbn -[inClass].
  rewrite Ha1, Ha2, Ha3, Ha4, Hdash. cbn -[inClass].
  rewrite Hsep, Hb1s. cbn -[inClass].
  rewrite Hb1, Hb2, Hdash. cbn -[inClass].
  rewrite Hsep, Hc1s. cbn -[inClass].
  rewrite Hc1, Hc2. cbn -[inClass].
  reflexivity.
Qed.

(** ** Printed dates and the formats *)

Section PrintedDates.

Context (daysInMonthMap : gmap Z (list Z)).

(** X21: What [toString] prints for a valid date is accepted by the pattern
    [YYYY-MM-DD], which captures the year, the month and the day as printed;
    so is the text [`${bsYear}-01-01`] that [toBikramSambat] hands to the
    constructor, for a year of four digits. *)
Theorem printed_dates_are_YYYY_MM_DD y m d :
  (1000 <= y <= 9999 ->
   exec pattern_YYYY_MM_DD (pretty y +:+ "-01-01") = Some [pretty y; "01"; "01"])
  /\ (printable daysInMonthMap = true ->
      isDayValid daysInMonthMap (Int y) (Int m) (Int d) = Ok true ->
      let printed := pretty y +:+ "-" +:+ padStart 2 "0" (pretty m)
                     +:+ "-" +:+ padStart 2 "0" (pretty d) in
      toString daysInMonthMap (mkBS (Some (Int y)) (Some (Int m)) (Some (Int d)))
      = Ok printed
      /\ exec pattern_YYYY_MM_DD printed
         = Some [pretty y; padStart 2 "0" (pretty m); padStart 2 "0" (pretty d)]).
Proof.
  split.
  - intros Hy.
    destruct (pretty_four_digits y Hy) as (a1 & a2 & a3 & a4 & -> & Ha1 & Ha2 & Ha3 & Ha4).
    apply (exec_printed_date a1 a2 a3 a4 "0" "1" "0" "1"); assumption || reflexivity.
  - intros Hp Hv.
    destruct (isDayValid_true _ _ _ _ Hv) as (y' & m' & d' & n & Ey & Em & Ed & Hn & Hd).
    injection Ey as <-. injection Em as <-. injection Ed as <-.
    destruct (daysInMonth_Ok _ _ _ _ Hn) as (months & Hrow & Hm & Hlook).
    destruct (printable_spec _ _ _ _ _ Hp Hrow Hlook) as [Hy Hn99].
    cbv zeta. split.
    { unfold toString. cbn [year month day]. rewrite Hv. reflexivity. }
    destruct (pretty_four_digits y Hy) as (a1 & a2 & a3 & a4 & -> & Ha1 & Ha2 & Ha3 & Ha4).
    destruct (padStart_two_digits m ltac:(lia)) as (b1 & b2 & -> & Hb1 & Hb2).
    destruct (padStart_two_digits d ltac:(lia)) as (c1 & c2 & -> & Hc1 & Hc2).
    apply (exec_printed_date a1 a2 a3 a4 b1 b2 c1 c2); assumption.
Qed.

End PrintedDates.

(** ** The formats on sample texts *)

Lemma DateFormats_do_not_overlap_witness :
  In (mkDateFormat pattern_YYYY_MM_DD "YYYY-MM-DD") DateFormats
  /\ In (mkDateFormat pattern_YYYY_MM_DD "YYYY-MM-DD") DateFormats
  /\ exec pattern_YYYY_MM_DD "75/1/1" <> None
  /\ mkDateFormat pattern_YYYY_MM_DD "YYYY-MM-DD"
     = mkDateFormat pattern_YYYY_MM_DD "YYYY-MM-DD".
Proof.
  assert (In (mkDateFormat pattern_YYYY_MM_DD "YYYY-MM-DD") DateFormats) as Hin
      by (cbn; tauto).
  assert (exec pattern_YYYY_MM_DD "75/1/1" <> None) as Hex by (vm_compute; discriminate).
  split; [exact Hin|]. split; [exact Hin|]. split; [exact Hex|].
  apply (DateFormats_do_not_overlap "75/1/1" _ _ Hin Hin Hex Hex).
Defined.

Lemma DateFormats_accept_no_dot_witness :
  In (mkDateFormat pattern_DD_MMMM_YYYY "DD-MMMM-YYYY") DateFormats
  /\ exec pattern_DD_MMMM_YYYY "12 Baisakh 2075" <> None
  /\ ~ In "."%char (String.list_ascii_of_string "12 Baisakh 2075").
Proof.
  assert (In (mkDateFormat pattern_DD_MMMM_YYYY "DD-MMMM-YYYY") DateFormats) as Hin
      by (cbn; tauto).
  assert (exec pattern_DD_MMMM_YYYY "12 Baisakh 2075" <> None) as Hex
      by (vm_compute; discriminate).
  split; [exact Hin|]. split; [exact Hex|].
  apply (DateFormats_accept_no_dot "12 Baisakh 2075" _ Hin Hex).
Defined.

Lemma YYYY_MM_DD_captures_witness :
  exec pattern_YYYY_MM_DD "75/1/1" = Some ["75"; "1"; "1"]
  /\ exists y s1 m s2 d,
      String.list_ascii_of_string "75/1/1" = y ++ [s1] ++ m ++ [s2] ++ d
      /\ ["75"; "1"; "1"]
         = [String.string_of_list_ascii y; String.string_of_list_ascii m;
            String.string_of_list_ascii d]
      /\ Forall (fun c => inClass Digit c = true) (y ++ m ++ d)
      /\ (2 <= length y <= 4)%nat /\ (1 <= length m <= 2)%nat
      /\ (1 <= length d <= 2)%nat
      /\ inClass Separator s1 = true /\ inClass Separator s2 = true.
Proof.
  split; [reflexivity|].
  apply (YYYY_MM_DD_captures "75/1/1" ["75"; "1"; "1"]). reflexivity.
Defined.

Lemma printed_dates_are_YYYY_MM_DD_witness :
  1000 <= 2077 <= 9999
  /\ exec pattern_YYYY_MM_DD (pretty 2077 +:+ "-01-01") = Some ["2077"; "01"; "01"]
  /\ printable Sample.daysInMonthMap = true
  /\ isDayValid Sample.daysInMonthMap (Int 2075) (Int 3) (Int 32) = Ok true
  /\ toString Sample.daysInMonthMap (date 2075 3 32) = Ok "2075-03-32"
  /\ exec pattern_YYYY_MM_DD "2075-03-32" = Some ["2075"; "03"; "32"].
Proof.
  pose proof (printed_dates_are_YYYY_MM_DD Sample.daysInMonthMap) as H.
  split; [lia|]. split.
  - apply (proj1 (H 2077 1 1)). lia.
  - split; [reflexivity|]. split; [reflexivity|].
    apply (proj2 (H 2075 3 32)); reflexivity.
Defined.
